(** * Copy-Pasta-Bot: the command dispatcher and its user data store

    A shallow embedding of [src/bot.py]: the [DatabaseManager], the
    [CommandHandler] with its cooldown table and command registry, and the
    message router of [DiscordBot].

    Conventions of the embedding.
    - A Python [str] is a [string]; its characters are the code points
      below 256.
    - A Python [dict] is a [gmap]; the [SqliteDict] behind
      [DatabaseManager.db] is a [gmap] from user identifiers to per-user
      dictionaries.  Its operations are total: storage faults of the live
      database are not modelled (those of the backup file are, see
      [WriteFault]).
    - [constants.BLACKLIST] and [do_not_push.ADMINS] are Python lists.
    - A [datetime] is an integer number of clock ticks; so is the float
      returned by [datetime.timestamp()].
    - A method that may raise runs in the monad [M]: it maps the bot state
      to a returned value or a raised exception, and the state it leaves.
    - The values of the modules [constants] and [do_not_push] and the
      functions of [cmds.*] are fields of [Constants] and [Plugins], over
      which everything below is parameterised. *)

From Stdlib Require Import ZArith String Ascii List Bool Lia.
From stdpp Require Import base option list gmap strings pretty fin_maps.

Local Open Scope string_scope.
Local Open Scope Z_scope.

(** ** Python strings *)

Module PyStr.

(** [str.isspace] on one character (code points below 256). *)
Definition is_space (c : ascii) : bool :=
  let n := nat_of_ascii c in
  ((9 <=? n) && (n <=? 13) || (28 <=? n) && (n <=? 32)
   || (n =? 133) || (n =? 160))%nat.

Fixpoint lstrip (s : string) : string :=
  match s with
  | EmptyString => EmptyString
  | String c r => if is_space c then lstrip r else s
  end.

Definition is_empty (s : string) : bool :=
  match s with EmptyString => true | _ => false end.

Fixpoint rstrip (s : string) : string :=
  match s with
  | EmptyString => EmptyString
  | String c r =>
      let r' := rstrip r in
      if is_space c && is_empty r' then EmptyString else String c r'
  end.

(** [s.strip()] *)
Definition strip (s : string) : string := lstrip (rstrip s).

(** [s.startswith(p)] *)
Definition startswith (p s : string) : bool := String.prefix p s.

Fixpoint rev_onto (s acc : string) : string :=
  match s with
  | EmptyString => acc
  | String c r => rev_onto r (String c acc)
  end.

Definition rev (s : string) : string := rev_onto s EmptyString.

(** [s.endswith(p)] *)
Definition endswith (p s : string) : bool := String.prefix (rev p) (rev s).

Fixpoint drop (n : nat) (s : string) : string :=
  match n, s with
  | O, _ => s
  | S n', String _ r => drop n' r
  | S _, EmptyString => EmptyString
  end.

Fixpoint take (n : nat) (s : string) : string :=
  match n, s with
  | S n', String c r => String c (take n' r)
  | _, _ => EmptyString
  end.

(** A slice bound, as Python normalises it: a negative bound counts
    from the end, and the result is clamped to [0, len]. *)
Definition clamp (len i : Z) : Z :=
  let i' := if i <? 0 then i + len else i in
  Z.max 0 (Z.min len i').

(** [s[i:j]] *)
Definition slice (i j : Z) (s : string) : string :=
  let len := Z.of_nat (String.length s) in
  let lo := clamp len i in
  let hi := clamp len j in
  take (Z.to_nat (hi - lo)) (drop (Z.to_nat lo) s).

(** [s[i:]] *)
Definition slice_from (i : Z) (s : string) : string :=
  drop (Z.to_nat (clamp (Z.of_nat (String.length s)) i)) s.

(** [s.split()]: the maximal runs of characters that are not white
    space. *)
Fixpoint split (s : string) : list string :=
  match s with
  | EmptyString => []
  | String c r =>
      if is_space c then split r
      else
        match r with
        | EmptyString => [String c EmptyString]
        | String c' _ =>
            if is_space c' then String c EmptyString :: split r
            else
              match split r with
              | t :: ts => String c t :: ts
              | [] => [String c EmptyString]
              end
        end
  end.

(** [s.split(';;')] *)
Fixpoint split_marker (s : string) : list string :=
  match s with
  | EmptyString => [EmptyString]
  | String c r =>
      let other :=
        match split_marker r with
        | t :: ts => String c t :: ts
        | [] => [String c EmptyString]
        end in
      match r with
      | String c' r' =>
          if Ascii.eqb c ";" && Ascii.eqb c' ";"
          then EmptyString :: split_marker r'
          else other
      | EmptyString => other
      end
  end.

(** [sep.join(l)] *)
Fixpoint join (sep : string) (l : list string) : string :=
  match l with
  | [] => EmptyString
  | [x] => x
  | x :: rest => x ++ sep ++ join sep rest
  end.

Definition digit_value (c : ascii) : option Z :=
  let n := nat_of_ascii c in
  if ((48 <=? n) && (n <=? 57))%nat then Some (Z.of_nat n - 48) else None.

Inductive digits_state := AtStart | AfterDigit | AfterUnderscore.

(** The digits of an integer literal: one underscore is allowed between
    two digits. *)
Fixpoint digits (st : digits_state) (acc : Z) (s : string) : option Z :=
  match s with
  | EmptyString =>
      match st with AfterDigit => Some acc | _ => None end
  | String c r =>
      match digit_value c with
      | Some d => digits AfterDigit (10 * acc + d) r
      | None =>
          match st with
          | AfterDigit =>
              if Ascii.eqb c "_" then digits AfterUnderscore acc r else None
          | _ => None
          end
      end
  end.

(** The white space [int()] skips around a literal: below code point
    127 the characters of C's [isspace], from 127 on those of
    [str.isspace]; the separators U+001C to U+001F are not among them. *)
Definition is_int_space (c : ascii) : bool :=
  let n := nat_of_ascii c in
  ((9 <=? n) && (n <=? 13) || (n =? 32) || (n =? 133) || (n =? 160))%nat.

Fixpoint int_lstrip (s : string) : string :=
  match s with
  | EmptyString => EmptyString
  | String c r => if is_int_space c then int_lstrip r else s
  end.

Fixpoint int_rstrip (s : string) : string :=
  match s with
  | EmptyString => EmptyString
  | String c r =>
      let r' := int_rstrip r in
      if is_int_space c && is_empty r' then EmptyString else String c r'
  end.

(** [int(s)]: [None] stands for [ValueError].  (The interpreter's limit
    on the number of digits is far above the length of a chat message
    and is left out.) *)
Definition int (s : string) : option Z :=
  match int_lstrip (int_rstrip s) with
  | String "-" r => Z.opp <$> digits AtStart 0 r
  | String "+" r => digits AtStart 0 r
  | t => digits AtStart 0 t
  end.

(** [str(n)] for an integer *)
Definition of_Z (n : Z) : string := pretty n.

Definition of_nat (n : nat) : string := pretty n.

End PyStr.

(** ** Data model *)

(** [class CommandResponse(Enum)] *)
Inductive CommandResponse :=
  SUCCESS | FAILURE | NO_PERMISSION | INVALID_ARGS | COOLDOWN.

Global Instance CommandResponse_eq_dec : EqDecision CommandResponse.
Proof. solve_decision. Defined.

(** The payload of a result, [Union[str, discord.File]]. *)
Inductive Payload :=
  | Text (s : string)
  | File (f : string).

(** [@dataclass class CommandResult] *)
Record CommandResult := mkCommandResult {
  status : CommandResponse;
  message : option Payload;
  error : option string;
}.

(** [CommandResult(st, msg)] with a text message; [error] keeps its
    default. *)
Definition result (st : CommandResponse) (msg : string) : CommandResult :=
  mkCommandResult st (Some (Text msg)) None.

(** Truth value of [response.message]. *)
Definition truthy (m : option Payload) : bool :=
  match m with
  | None => false
  | Some (Text s) => negb (PyStr.is_empty s)
  | Some (File _) => true
  end.

Record User := mkUser { id : Z; bot : bool }.

(** The message a reply refers to, once resolved. *)
Record ResolvedMessage := mkResolved {
  resolved_id : Z;
  resolved_content : string;
  attachments : list string;           (* attachment.url *)
  stickers : list (string * string);   (* sticker.name, sticker.url *)
}.

(** [discord.MessageReference]; [resolved] is [None] when the client
    could not fetch the message. *)
Record MessageReference := mkReference {
  resolved : option ResolvedMessage;
}.

Record Message := mkMessage {
  message_id : Z;
  author : User;
  content : string;
  reference : option MessageReference;
}.

(** One call of [target.reply(body)]. *)
Record OutboundReply := mkReply {
  target : Z;
  body : Payload;
}.

Abbreviation UserDb := (gmap string string).
Abbreviation Db := (gmap Z (gmap string string)).

(** The mutable state of the process: the attributes of
    [DatabaseManager] and [CommandHandler], the module-level list
    [constants.BLACKLIST], the backup files on disk, and the identity of
    the client. *)
Record Bot := mkBot {
  db : Db;
  db_name : string;
  last_backup : Z;
  backup_interval : Z;
  command_cooldowns : gmap string (gmap Z Z);
  BLACKLIST : list Z;
  files : gmap string Db;
  client_user : Z;
}.

Definition set_db (d : Db) (s : Bot) : Bot :=
  mkBot d (db_name s) (last_backup s) (backup_interval s)
        (command_cooldowns s) (BLACKLIST s) (files s) (client_user s).

Definition set_last_backup (t : Z) (s : Bot) : Bot :=
  mkBot (db s) (db_name s) t (backup_interval s)
        (command_cooldowns s) (BLACKLIST s) (files s) (client_user s).

Definition set_command_cooldowns (c : gmap string (gmap Z Z)) (s : Bot) : Bot :=
  mkBot (db s) (db_name s) (last_backup s) (backup_interval s)
        c (BLACKLIST s) (files s) (client_user s).

Definition set_BLACKLIST (b : list Z) (s : Bot) : Bot :=
  mkBot (db s) (db_name s) (last_backup s) (backup_interval s)
        (command_cooldowns s) b (files s) (client_user s).

Definition set_files (f : gmap string Db) (s : Bot) : Bot :=
  mkBot (db s) (db_name s) (last_backup s) (backup_interval s)
        (command_cooldowns s) (BLACKLIST s) f (client_user s).

(** How the write of a backup file goes wrong. *)
Inductive WriteFault :=
  | NoFault
  | FailOpen (e : string)              (* opening raises, nothing on disk *)
  | FailAfter (n : nat) (e : string).  (* the file is there; at most [n]
                                          records are copied, then the next
                                          operation raises *)

(** What one dispatch reads from the outside world. *)
Record Env := mkEnv {
  now : Z;                        (* [datetime.now()] *)
  stamp : string;                 (* [datetime.now().strftime(...)] *)
  mkdir_raises : option string;   (* [backup_dir.mkdir] raises *)
  write_fault : WriteFault;
}.

(** ** Returned values and raised exceptions *)

Inductive exc (A : Type) :=
  | Ret (a : A)
  | Raise (e : string).   (* [str(e)] of the exception *)
Arguments Ret {A} a.
Arguments Raise {A} e.

Definition M (A : Type) : Type := Env -> Bot -> exc A * Bot.

Definition ret {A} (a : A) : M A := fun _ s => (Ret a, s).

Definition raise {A} (e : string) : M A := fun _ s => (Raise e, s).

Definition bind {A B} (m : M A) (k : A -> M B) : M B :=
  fun env s =>
    match m env s with
    | (Ret a, s') => k a env s'
    | (Raise e, s') => (Raise e, s')
    end.

(** [try: m  except Exception as e: h e] *)
Definition try_except {A} (m : M A) (h : string -> M A) : M A :=
  fun env s =>
    match m env s with
    | (Ret a, s') => (Ret a, s')
    | (Raise e, s') => h e env s'
    end.

Definition get : M Bot := fun _ s => (Ret s, s).
Definition put (s : Bot) : M unit := fun _ _ => (Ret tt, s).
Definition ask : M Env := fun env s => (Ret env, s).

(** A value that may be an exception, lifted into [M]. *)
Definition lift_exc {A} (x : exc A) : M A := fun _ s => (x, s).

(** [l[i]], raising [IndexError] out of range. *)
Definition index {A} (l : list A) (i : nat) : M A :=
  match l !! i with
  | Some x => ret x
  | None => raise "list index out of range"
  end.

(** [int(s)], raising [ValueError]. *)
Definition int (s : string) : M Z :=
  match PyStr.int s with
  | Some n => ret n
  | None => raise ("invalid literal for int() with base 10: '" ++ s ++ "'")
  end.

Declare Scope bot_scope.
Delimit Scope bot_scope with bot.
Notation "x <- m ;; k" := (bind m (fun x => k))
  (at level 100, m at next level, right associativity) : bot_scope.
Notation "m ;; k" := (bind m (fun _ => k))
  (at level 100, right associativity) : bot_scope.
Local Open Scope bot_scope.

(** ** The imported modules *)

(** [constants] and [do_not_push]. *)
Record Constants := mkConstants {
  KEY_EXISTS_ADD : string;
  SUCCESSFUL : string;
  UNSUCCESSFUL : string;
  WRONG_ARGS : string;
  WRONG_ARGS_ADD : string;
  WRONG_ARGS_DEL : string;
  WRONG_USER_ID : string;
  EMPTY_MESSAGE : string;
  EMPTY_LIST : string;
  KEY_NOT_FOUND : string;
  KEY_EXISTS_RENAME : string;
  HELP_TEXT : string;
  COMMAND_COOLDOWN : Z;
  REPLACE : string -> bool;    (* [re.match(constants.REPLACE, _)] matches *)
  COMMAND : string -> bool;    (* [re.match(constants.COMMAND, _)] matches *)
  ADMINS : list Z;             (* [do_not_push.ADMINS] *)
}.

(** The functions of [cmds.*] that the handlers call.  Those that are
    handed [self.db.db] act on the database only. *)
Record Plugins := mkPlugins {
  delete_me : Db -> Z -> exc bool * Db;
  rename_key : Db -> Z -> string -> string -> bool -> exc Z * Db;
  steal : Db -> Z -> string -> Z -> option string -> exc bool * Db;
  handle_text_command : string -> MessageReference -> exc Payload;
  handle_mock_command : MessageReference -> exc Payload;
  handle_deepfry_command : MessageReference -> exc Payload;
}.

(** A call of a plugin on [self.db.db]. *)
Definition on_db {A} (f : Db -> exc A * Db) : M A :=
  fun _ s => let '(r, d) := f (db s) in (r, set_db d s).

Section Bot.

Variable constants : Constants.
Variable cmds : Plugins.

(** *** [class Permission] *)

Definition is_admin (user_id : Z) : bool :=
  bool_decide (user_id ∈ ADMINS constants).

Definition is_blacklisted (user_id : Z) (s : Bot) : bool :=
  bool_decide (user_id ∈ BLACKLIST s).

Definition Handler : Type :=
  User -> list string -> option MessageReference -> M CommandResult.

(** The decorator [@Permission.requires_admin]. *)
Definition requires_admin (func : Handler) : Handler :=
  fun user args reply =>
    if negb (is_admin (id user))
    then ret (result NO_PERMISSION
                     "You don't have permission to use this command.")
    else func user args reply.

(** *** [class DatabaseManager] *)

Definition backup_path (s : Bot) (env : Env) : string :=
  "backups/" ++ db_name s ++ "_backup_" ++ stamp env ++ ".sqlite".

(** [for key in self.db.keys(): backup_db[key] = self.db[key]], from
    the contents [backup_db] already has. *)
Definition copy_records (records : list (Z * UserDb)) (backup_db : Db) : Db :=
  foldl (fun acc kv => <[kv.1 := kv.2]> acc) backup_db records.

(** The body of the [try] of [create_backup]: open the backup file
    (an existing one is opened as it is), copy every record, close. *)
Definition write_backup (path : string) : M unit :=
  fun env s =>
    let records := map_to_list (db s) in
    let backup_db := default ∅ (files s !! path) in
    match write_fault env with
    | NoFault =>
        (Ret tt, set_files (<[path := copy_records records backup_db]> (files s)) s)
    | FailOpen e => (Raise e, s)
    | FailAfter n e =>
        (Raise e,
         set_files (<[path := copy_records (take n records) backup_db]> (files s)) s)
    end.

(** [backup_path.exists()] and [backup_path.unlink()] *)
Definition path_exists (path : string) (s : Bot) : bool :=
  bool_decide (is_Some (files s !! path)).

Definition unlink (path : string) : M unit :=
  fun _ s => (Ret tt, set_files (delete path (files s)) s).

Definition create_backup : M bool :=
  env <- ask ;;
  match mkdir_raises env with
  | Some e => raise e
  | None =>
      s <- get ;;
      let path := backup_path s env in
      try_except
        (write_backup path ;; ret true)
        (fun e =>
           s' <- get ;;
           (if path_exists path s' then unlink path else ret tt) ;;
           ret false)
  end.

Definition _periodic_backup : M unit :=
  env <- ask ;;
  s <- get ;;
  let current_time := now env in
  if backup_interval s <=? current_time - last_backup s
  then
    create_backup ;;
    s' <- get ;;
    put (set_last_backup current_time s')
  else ret tt.

Definition store_text (user : Z) (key value : string) (overwrite : bool)
  : M CommandResult :=
  try_except
    (s <- get ;;
     let user_db := default ∅ (db s !! user) in
     if bool_decide (is_Some (user_db !! key)) && negb overwrite
     then ret (result FAILURE (KEY_EXISTS_ADD constants))
     else
       let user_db := <[key := value]> user_db in
       put (set_db (<[user := user_db]> (db s)) s) ;;
       ret (result SUCCESS (SUCCESSFUL constants)))
    (fun e => raise ("Failed to store text: " ++ e)).

Definition retrieve_text (user : Z) (key : string) (s : Bot) : option string :=
  default ∅ (db s !! user) !! key.

Definition get_user_keys (user : Z) (s : Bot) : list string :=
  (map_to_list (default ∅ (db s !! user))).*1.

Definition delete_key (user : Z) (key : string) : M bool :=
  try_except
    (s <- get ;;
     let user_db := default ∅ (db s !! user) in
     if bool_decide (is_Some (user_db !! key))
     then
       let user_db := delete key user_db in
       put (set_db (<[user := user_db]> (db s)) s) ;;
       ret true
     else ret false)
    (fun e => ret false).

(** [copy_database]: the loop of [create_backup], into a database the
    caller hands over. *)
Definition copy_database (new_db : Db) : M Db :=
  try_except
    (s <- get ;;
     ret (copy_records (map_to_list (db s)) new_db))
    (fun e => raise ("Failed to copy database: " ++ e)).

(** *** [class CommandHandler] *)

Definition _check_cooldown (user_id : Z) (command : string) : M bool :=
  fun env s =>
    let current_time := now env in
    let cooldowns :=
      match command_cooldowns s !! command with
      | None => <[command := ∅]> (command_cooldowns s)
      | Some _ => command_cooldowns s
      end in
    let of_command := default ∅ (cooldowns !! command) in
    let record :=
      (Ret true,
       set_command_cooldowns
         (<[command := <[user_id := current_time]> of_command]> cooldowns) s) in
    match of_command !! user_id with
    | Some last_used =>
        if current_time - last_used <? COMMAND_COOLDOWN constants
        then (Ret false, set_command_cooldowns cooldowns s)
        else record
    | None => record
    end.

Definition nl : string := String (ascii_of_nat 10) EmptyString.

(** [reply.resolved.<attribute>]: attribute access on [None] raises. *)
Definition resolved_of (reply : MessageReference) : M ResolvedMessage :=
  match resolved reply with
  | Some m => ret m
  | None => raise "'NoneType' object has no attribute 'content'"
  end.

Definition _get_attachments_text (message : ResolvedMessage) : string :=
  let text := EmptyString in
  let text :=
    foldl (fun text '(i, url) =>
             text ++ "[Attachment " ++ PyStr.of_nat i ++ "](" ++ url ++ ") ")
          text (imap pair (attachments message)) in
  foldl (fun text '(name, url) => text ++ "[" ++ name ++ "](" ++ url ++ ") ")
        text (stickers message).

Definition _handle_add (overwrite : bool) : Handler :=
  fun user args reply =>
    if (length args =? 1)%nat
       || ((length args =? 2)%nat && bool_decide (reply = None))
    then ret (result INVALID_ARGS (WRONG_ARGS_ADD constants))
    else
      try_except
        (if (length args =? 2)%nat
         then
           match reply with
           | None => ret (result INVALID_ARGS (WRONG_ARGS_ADD constants))
           | Some reply =>
               m <- resolved_of reply ;;
               let original_message := PyStr.strip (resolved_content m) in
               let original_message :=
                 original_message ++ _get_attachments_text m in
               if PyStr.is_empty original_message
               then ret (result FAILURE (EMPTY_MESSAGE constants))
               else
                 key <- index args 1 ;;
                 store_text (id user) key original_message overwrite
           end
         else
           key <- index args 1 ;;
           store_text (id user) key (PyStr.join " " (drop 2 args)) overwrite)
        (fun e => ret (result FAILURE "Failed to add text")).

(** A user mention, [<@...>]. *)
Definition is_mention (a : string) : bool :=
  PyStr.startswith "<@" a && PyStr.endswith ">" a.

Definition _handle_saved : Handler :=
  fun user args reply =>
    try_except
      (s <- get ;;
       if (length args =? 2)%nat && is_mention (nth 1 args EmptyString)
       then
         if negb (is_admin (id user))
         then ret (result NO_PERMISSION
                     "You don't have permission to view another user's keys.")
         else
           a <- index args 1 ;;
           mentioned_user_id <- int (PyStr.slice 2 (-1) a) ;;
           let keys := get_user_keys mentioned_user_id s in
           ret (result SUCCESS
                  (match keys with
                   | [] => EMPTY_LIST constants
                   | _ => "Keys for <@" ++ PyStr.of_Z mentioned_user_id
                          ++ ">:" ++ nl ++ "- "
                          ++ PyStr.join (nl ++ "- ") keys
                   end))
       else
         let keys := get_user_keys (id user) s in
         ret (result SUCCESS
                (match keys with
                 | [] => EMPTY_LIST constants
                 | _ => "- " ++ PyStr.join (nl ++ "- ") keys
                 end)))
      (fun e => ret (result FAILURE "Failed to retrieve saved items")).

Definition _handle_delete : Handler :=
  fun user args reply =>
    if negb (length args =? 2)%nat
    then ret (result INVALID_ARGS (WRONG_ARGS_DEL constants))
    else
      key <- index args 1 ;;
      deleted <- delete_key (id user) key ;;
      if deleted : bool
      then ret (result SUCCESS (SUCCESSFUL constants))
      else ret (result FAILURE (KEY_NOT_FOUND constants)).

Definition _handle_delete_me : Handler :=
  fun user args reply =>
    deleted <- on_db (fun d => delete_me cmds d (id user)) ;;
    if deleted : bool
    then ret (result SUCCESS (SUCCESSFUL constants))
    else ret (result FAILURE (EMPTY_LIST constants)).

Definition _handle_rename (user : User) (args : list string) (overwrite : bool)
  : M CommandResult :=
  if negb (length args =? 3)%nat
  then ret (result INVALID_ARGS (WRONG_ARGS_DEL constants))
  else
    try_except
      (old <- index args 1 ;;
       new <- index args 2 ;;
       status <- on_db (fun d => rename_key cmds d (id user) old new overwrite) ;;
       match status with
       | 0 => ret (result SUCCESS (SUCCESSFUL constants))
       | -1 => ret (result FAILURE (EMPTY_LIST constants))
       | -2 => ret (result FAILURE (KEY_NOT_FOUND constants))
       | -3 => ret (result FAILURE
                      (if negb overwrite then KEY_EXISTS_RENAME constants
                       else UNSUCCESSFUL constants))
       | _ => ret (result FAILURE (UNSUCCESSFUL constants))
       end)
      (fun e => ret (result FAILURE ("An error occurred: " ++ e))).

Definition _handle_text_transform (command_type : string) : Handler :=
  fun user args reply =>
    match reply with
    | None =>
        ret (result INVALID_ARGS
               "You need to reply to a message to use this command.")
    | Some reply =>
        try_except
          (payload <- lift_exc (handle_text_command cmds command_type reply) ;;
           ret (mkCommandResult SUCCESS (Some payload) None))
          (fun e => ret (result FAILURE
                           ("Failed to transform text using " ++ command_type)))
    end.

Definition _handle_mock : Handler :=
  fun user args reply =>
    match reply with
    | None =>
        ret (result INVALID_ARGS
               "You need to reply to a message to use this command.")
    | Some reply =>
        try_except
          (payload <- lift_exc (handle_mock_command cmds reply) ;;
           ret (mkCommandResult SUCCESS (Some payload) None))
          (fun e => ret (result FAILURE "Failed to mock the message."))
    end.

Definition _handle_steal : Handler :=
  fun user args reply =>
    if negb ((length args =? 3)%nat || (length args =? 4)%nat)
    then ret (result INVALID_ARGS (WRONG_ARGS constants))
    else
      try_except
        (steal_from <- index args 1 ;;
         if negb (PyStr.startswith "<@" steal_from)
            || negb (PyStr.endswith ">" steal_from)
         then ret (result INVALID_ARGS (WRONG_USER_ID constants))
         else
           steal_from_id <- int (PyStr.slice 2 (-1) steal_from) ;;
           key_to_steal <- index args 2 ;;
           let new_key := if (length args =? 4)%nat then args !! 3%nat else None in
           stolen <- on_db (fun d => steal cmds d (id user) key_to_steal
                                       steal_from_id new_key) ;;
           if stolen : bool
           then ret (result SUCCESS (SUCCESSFUL constants))
           else ret (result FAILURE (KEY_NOT_FOUND constants)))
        (fun e => ret (result FAILURE "Failed to steal the key.")).

Definition _handle_deepfry : Handler :=
  fun user args reply =>
    match reply with
    | None =>
        ret (result INVALID_ARGS
               "You need to reply to a message with an image to use this command.")
    | Some reply =>
        try_except
          (payload <- lift_exc (handle_deepfry_command cmds reply) ;;
           ret (mkCommandResult SUCCESS (Some payload) None))
          (fun e => ret (result FAILURE "Failed to deepfry the image."))
    end.

(** [l.remove(x)]: the first occurrence goes. *)
Fixpoint list_remove_first (x : Z) (l : list Z) : list Z :=
  match l with
  | [] => []
  | y :: r => if bool_decide (y = x) then r else y :: list_remove_first x r
  end.

Definition _handle_blacklist_add : Handler :=
  requires_admin (fun user args reply =>
    if negb (length args =? 2)%nat || negb (is_mention (nth 1 args EmptyString))
    then ret (result INVALID_ARGS "Invalid user mention.")
    else
      try_except
        (a <- index args 1 ;;
         user_id_to_blacklist <- int (PyStr.slice 2 (-1) a) ;;
         s <- get ;;
         if bool_decide (user_id_to_blacklist ∈ ADMINS constants)
         then ret (result FAILURE "You cannot blacklist another admin.")
         else if bool_decide (user_id_to_blacklist ∈ BLACKLIST s)
         then ret (result FAILURE "User is already blacklisted.")
         else
           put (set_BLACKLIST (BLACKLIST s ++ [user_id_to_blacklist]) s) ;;
           ret (result SUCCESS
                  ("User <@" ++ PyStr.of_Z user_id_to_blacklist
                   ++ "> has been blacklisted.")))
        (fun e => ret (result FAILURE "Failed to add user to blacklist."))).

Definition _handle_blacklist_remove : Handler :=
  requires_admin (fun user args reply =>
    if negb (length args =? 2)%nat || negb (is_mention (nth 1 args EmptyString))
    then ret (result INVALID_ARGS "Invalid user mention.")
    else
      try_except
        (a <- index args 1 ;;
         user_id_to_remove <- int (PyStr.slice 2 (-1) a) ;;
         s <- get ;;
         if negb (bool_decide (user_id_to_remove ∈ BLACKLIST s))
         then ret (result FAILURE "User is not blacklisted.")
         else
           put (set_BLACKLIST (list_remove_first user_id_to_remove (BLACKLIST s)) s) ;;
           ret (result SUCCESS
                  ("User <@" ++ PyStr.of_Z user_id_to_remove
                   ++ "> has been removed from the blacklist.")))
        (fun e => ret (result FAILURE "Failed to remove user from blacklist."))).

Definition _handle_backup : Handler :=
  requires_admin (fun user args reply =>
    try_except
      (created <- create_backup ;;
       if created : bool
       then ret (result SUCCESS "Database backup created successfully.")
       else ret (result FAILURE "Database backup failed."))
      (fun e => ret (result FAILURE "Failed to create a backup."))).

(** [setup_commands]: the registry, in the order of the source. *)
Definition commands : list (string * Handler) :=
  [ ("add", _handle_add false);
    ("add_o", fun u a r => _handle_add true u a r);
    ("saved", _handle_saved);
    ("delete", _handle_delete);
    ("delete_me", _handle_delete_me);
    ("rename", fun u a r => _handle_rename u a false);
    ("rename_o", fun u a r => _handle_rename u a true);
    ("help", fun u a r => ret (result SUCCESS (HELP_TEXT constants)));
    ("steal", _handle_steal);
    ("blacklist_add", _handle_blacklist_add);
    ("blacklist_remove", _handle_blacklist_remove);
    ("backup", _handle_backup);
    ("clap", _handle_text_transform "clap");
    ("zalgo", _handle_text_transform "zalgo");
    ("forbesify", _handle_text_transform "forbesify");
    ("copypasta", _handle_text_transform "copypasta");
    ("owo", _handle_text_transform "owo");
    ("stretch", _handle_text_transform "stretch");
    ("mock", _handle_mock);
    ("deepfry", _handle_deepfry) ].

(** [self.commands[command]], [None] when [command not in self.commands]. *)
Fixpoint lookup_command (table : list (string * Handler)) (command : string)
  : option Handler :=
  match table with
  | [] => None
  | (name, handler) :: rest =>
      if String.eqb name command then Some handler
      else lookup_command rest command
  end.

Definition cooldown_message (command : string) : string :=
  "Command " ++ command ++ " is on cooldown. Please wait.".

Definition handle_command (user : User) (cmd : string)
                          (reply : option MessageReference)
  : M (option CommandResult) :=
  let cmd := if PyStr.startswith ";;" cmd then PyStr.slice_from 2 cmd else cmd in
  let args := PyStr.split cmd in
  match args with
  | [] => ret None
  | command :: _ =>
      match lookup_command commands command with
      | Some handler =>
          try_except
            (passed <- _check_cooldown (id user) command ;;
             if negb passed
             then ret (Some (result COOLDOWN (cooldown_message command)))
             else
               r <- handler user args reply ;;
               ret (Some r))
            (fun e => ret (Some (result FAILURE ("An error occurred: " ++ e))))
      | None => ret (Some (result FAILURE "Unknown command."))
      end
  end.

(** *** [class DiscordBot] *)

(** [message.reference.resolved if message.reference else message] *)
Definition reply_target (message : Message) : option Z :=
  match reference message with
  | Some r => resolved_id <$> resolved r
  | None => Some (message_id message)
  end.

(** [await target.reply(body)]; the target is [None] when the reference
    is not resolved. *)
Definition reply_to (target : option Z) (body : Payload) : M (list OutboundReply) :=
  match target with
  | Some t => ret [mkReply t body]
  | None => raise "'NoneType' object has no attribute 'reply'"
  end.

Definition send_response (msg : Message) (response : CommandResult)
  : M (list OutboundReply) :=
  let target := reply_target msg in
  if bool_decide (status response = SUCCESS) && truthy (message response)
  then
    match message response with
    | Some payload => reply_to target payload
    | None => ret []
    end
  else if bool_decide (status response ∈ [FAILURE; NO_PERMISSION; INVALID_ARGS])
  then
    reply_to (Some (message_id msg))
             (match message response with
              | Some payload =>
                  if truthy (message response) then payload
                  else Text "An error occurred."
              | None => Text "An error occurred."
              end)
  else ret [].

Definition handle_bot_command (message : Message) : M (list OutboundReply) :=
  response <- handle_command (author message) (PyStr.strip (content message))
                             (reference message) ;;
  match response with
  | Some response => send_response message response
  | None => ret []
  end.

Definition handle_replacement (message : Message) : M (list OutboundReply) :=
  let parts := PyStr.split_marker (PyStr.strip (content message)) in
  key <- index parts 1 ;;
  s <- get ;;
  match retrieve_text (id (author message)) key s with
  | Some replaced_text =>
      if PyStr.is_empty replaced_text then ret []
      else reply_to (reply_target message) (Text replaced_text)
  | None => ret []
  end.

Definition process_message (message : Message) : M (list OutboundReply) :=
  let content := PyStr.strip (content message) in
  if REPLACE constants content then handle_replacement message
  else if COMMAND constants content then handle_bot_command message
  else ret [].

Definition blacklisted_reply : string :=
  "You are blacklisted from using this bot.".

Definition on_message (message : Message) : M (list OutboundReply) :=
  s <- get ;;
  if (id (author message) =? client_user s) || bot (author message)
  then ret []
  else if is_blacklisted (id (author message)) s
  then
    if PyStr.startswith ";;" (PyStr.strip (content message))
    then reply_to (Some (message_id message)) (Text blacklisted_reply)
    else ret []
  else process_message message.

End Bot.

Arguments is_admin constants user_id /.
Arguments is_blacklisted user_id s /.

(** ** A concrete configuration

    Stand-ins for the absent modules, used to run the model on concrete
    inputs. *)

Module Sample.

Definition constants : Constants := {|
  KEY_EXISTS_ADD := "Key already exists.";
  SUCCESSFUL := "Done.";
  UNSUCCESSFUL := "Could not do that.";
  WRONG_ARGS := "Wrong arguments.";
  WRONG_ARGS_ADD := "Usage: add <key> [text]";
  WRONG_ARGS_DEL := "Usage: delete <key>";
  WRONG_USER_ID := "That is not a user.";
  EMPTY_MESSAGE := "The message is empty.";
  EMPTY_LIST := "Nothing saved.";
  KEY_NOT_FOUND := "Key not found.";
  KEY_EXISTS_RENAME := "Target key exists.";
  HELP_TEXT := "Help.";
  COMMAND_COOLDOWN := 3;
  REPLACE := fun s =>
    PyStr.startswith ";;" s && (length (PyStr.split s) =? 1)%nat;
  COMMAND := fun s => PyStr.startswith ";;" s;
  ADMINS := [1; 2];
|}.

Definition cmds : Plugins := {|
  delete_me := fun d u =>
    (Ret (bool_decide (is_Some (d !! u))), delete u d);
  rename_key := fun d u old new overwrite => (Ret (-1), d);
  steal := fun d u key from new_key =>
    match default ∅ (d !! from) !! key with
    | Some v =>
        (Ret true,
         <[u := <[default key new_key := v]> (default ∅ (d !! u))]> d)
    | None => (Ret false, d)
    end;
  handle_text_command := fun kind r =>
    match resolved r with
    | Some m => Ret (Text (kind ++ ": " ++ resolved_content m))
    | None => Raise "no message"
    end;
  handle_mock_command := fun r => Raise "no message";
  handle_deepfry_command := fun r => Ret (File "fried.png");
|}.

Definition bot : Bot := {|
  db := ∅;
  db_name := "pasta.sqlite";
  last_backup := 0;
  backup_interval := 86400;
  command_cooldowns := ∅;
  BLACKLIST := [7];
  files := ∅;
  client_user := 99;
|}.

(** [bot], with user 42 having used [add] at time 100. *)
Definition cooling : Bot :=
  set_command_cooldowns {[ "add" := {[ 42 := 100 ]} ]} bot.

Definition env (t : Z) : Env := {|
  now := t;
  stamp := "20240101_000000";
  mkdir_raises := None;
  write_fault := NoFault;
|}.

Definition failing_env (t : Z) : Env := {|
  now := t;
  stamp := "20240101_000000";
  mkdir_raises := None;
  write_fault := FailAfter 1 "disk full";
|}.

Definition message_from (uid : Z) (text : string) : Message :=
  mkMessage 1000 (mkUser uid false) text None.

(** State and replies after a sequence of inbound messages, processed
    one after the other, the clock advancing by [step] between two. *)
Fixpoint run (step t : Z) (msgs : list Message) (s : Bot)
  : list (exc (list OutboundReply)) * Bot :=
  match msgs with
  | [] => ([], s)
  | m :: rest =>
      let '(r, s') := on_message constants cmds m (env t) s in
      let '(rs, s'') := run step (t + step) rest s' in
      (r :: rs, s'')
  end.

End Sample.

(** ** Vocabulary of the properties *)

(** A string whose first character is not white space. *)
Definition starts_solid (s : string) : Prop :=
  ∃ c r, s = String c r ∧ PyStr.is_space c = false.

(** The timestamp recorded for a command and a user. *)
Definition last_used (command : string) (user_id : Z) (s : Bot) : option Z :=
  command_cooldowns s !! command ≫= fun of_command => of_command !! user_id.

(** [Admins] and [Blacklist] have no identifier in common. *)
Definition disjoint_permissions (constants : Constants) (s : Bot) : Prop :=
  ∀ u, u ∈ ADMINS constants -> u ∉ BLACKLIST s.

(** The tokens [handle_command] splits a command text into. *)
Definition tokens_of (cmd : string) : list string :=
  PyStr.split (if PyStr.startswith ";;" cmd then PyStr.slice_from 2 cmd else cmd).

(** The cooldown gate is closed: a timestamp is recorded for the command
    and the user, less than [COMMAND_COOLDOWN] before the current time. *)
Definition on_cooldown (constants : Constants) (command : string) (user_id : Z)
                       (env : Env) (s : Bot) : bool :=
  match last_used command user_id s with
  | Some last => now env - last <? COMMAND_COOLDOWN constants
  | None => false
  end.

(** What [handle_command] makes of the run of a handler: its result, or
    the failure that stands for the exception it raised. *)
Definition dispatched (run : exc CommandResult * Bot)
  : exc (option CommandResult) * Bot :=
  match run with
  | (Ret r, s) => (Ret (Some r), s)
  | (Raise e, s) => (Ret (Some (result FAILURE ("An error occurred: " ++ e))), s)
  end.

(** A computation that leaves a component of the state as it found it. *)
Definition keeps {X A} (f : Bot -> X) (m : M A) : Prop :=
  ∀ env s, f (m env s).2 = f s.

(** The state after a sequence of inbound messages, each with what its
    processing reads from the outside world. *)
Fixpoint process_all (constants : Constants) (cmds : Plugins)
                     (inputs : list (Message * Env)) (s : Bot) : Bot :=
  match inputs with
  | [] => s
  | (message, env) :: rest =>
      process_all constants cmds rest (on_message constants cmds message env s).2
  end.

(** The record of a user, empty when the user is unknown. *)
Definition record_of (user : Z) (s : Bot) : UserDb :=
  default ∅ (db s !! user).

(** A text in which [;] occurs. *)
Fixpoint has_semicolon (s : string) : bool :=
  match s with
  | EmptyString => false
  | String c r => Ascii.eqb c ";" || has_semicolon r
  end.

(** What no command is meant to change: the name of the database, the
    schedule of the periodic backup and the identity of the client. *)
Definition fixed_part (s : Bot) : string * Z * Z * Z :=
  (db_name s, last_backup s, backup_interval s, client_user s).

(** What one message can do to the blacklist: nothing, append an
    identifier that is neither an admin's nor in the list, or remove the
    first occurrence of one that is in the list. *)
Definition blacklist_step (constants : Constants) (l l' : list Z) : Prop :=
  l' = l
  ∨ (∃ n, (n ∉ ADMINS constants) ∧ (n ∉ l) ∧ l' = (l ++ [n])%list)
  ∨ (∃ n, n ∈ l ∧ l' = list_remove_first n l).

(** A handler that hands the replied-to message to a plugin: it never
    raises and never changes the state; without a replied-to message it
    answers [INVALID_ARGS]; with one it answers with the plugin's payload,
    or with a failure when the plugin raises. *)
Definition pure_transform (handler : Handler)
                          (run : MessageReference -> exc Payload) : Prop :=
  ∀ user args reply env s,
    ∃ r,
      handler user args reply env s = (Ret r, s)
      ∧ (reply = None -> status r = INVALID_ARGS)
      ∧ (∀ ref payload, reply = Some ref -> run ref = Ret payload ->
           r = mkCommandResult SUCCESS (Some payload) None)
      ∧ (∀ ref e, reply = Some ref -> run ref = Raise e ->
           status r = FAILURE).

(** ** Properties *)

(** *** The state setters *)

Lemma set_db_id s : set_db (db s) s = s.
Proof. by destruct s. Qed.

Lemma set_command_cooldowns_id s :
  set_command_cooldowns (command_cooldowns s) s = s.
Proof. by destruct s. Qed.

(** *** Python strings *)

Lemma starts_solid_app s t : starts_solid s -> starts_solid (s ++ t).
Proof. intros (c & r & -> & Hc). by exists c, (r ++ t). Qed.

Lemma rstrip_solid s : starts_solid s -> starts_solid (PyStr.rstrip s).
Proof.
  intros (c & r & -> & Hc). simpl. rewrite Hc. simpl.
  by exists c, (PyStr.rstrip r).
Qed.

Lemma lstrip_solid s : starts_solid s -> PyStr.lstrip s = s.
Proof. intros (c & r & -> & Hc). simpl. by rewrite Hc. Qed.

Lemma strip_solid s : starts_solid s -> starts_solid (PyStr.strip s).
Proof.
  intros Hs. unfold PyStr.strip.
  rewrite lstrip_solid; by apply rstrip_solid.
Qed.

Lemma lstrip_empty_or_solid s :
  PyStr.lstrip s = EmptyString ∨ starts_solid (PyStr.lstrip s).
Proof.
  induction s as [|c r IH]; simpl; [by left|].
  destruct (PyStr.is_space c) eqn:Hc; [done|].
  right. by exists c, r.
Qed.

Lemma strip_empty_or_solid s :
  PyStr.strip s = EmptyString ∨ starts_solid (PyStr.strip s).
Proof. apply lstrip_empty_or_solid. Qed.

Lemma starts_solid_nonempty s : starts_solid s -> s ≠ EmptyString.
Proof. by intros (c & r & -> & _). Qed.

(** Every token of [s.split()] starts with a character that is not white
    space; in particular none is empty. *)
Lemma split_tokens_solid s t : t ∈ PyStr.split s -> starts_solid t.
Proof.
  revert t. induction s as [|c r IH]; intros t; simpl.
  - by intros ?%elem_of_nil.
  - destruct (PyStr.is_space c) eqn:Hc; [by apply IH|].
    destruct r as [|c' r'].
    + intros ->%list_elem_of_singleton. by exists c, EmptyString.
    + destruct (PyStr.is_space c') eqn:Hc'.
      * intros [->|Ht]%elem_of_cons; [by exists c, EmptyString | by apply IH].
      * destruct (PyStr.split (String c' r')) as [|t0 ts] eqn:Hsp.
        -- intros ->%list_elem_of_singleton. by exists c, EmptyString.
        -- intros [->|Ht]%elem_of_cons; [by exists c, t0|].
           apply IH. by right.
Qed.

Lemma join_solid sep t ts : starts_solid t -> starts_solid (PyStr.join sep (t :: ts)).
Proof.
  intros Ht. destruct ts as [|t' ts]; simpl; [done|].
  by apply starts_solid_app.
Qed.

Lemma foldl_pieces_solid {X} (f : string -> X -> string) (l : list X) init :
  (∀ t x, ∃ p, f t x = t ++ p ∧ starts_solid p) ->
  init = EmptyString ∨ starts_solid init ->
  foldl f init l = EmptyString ∨ starts_solid (foldl f init l).
Proof.
  intros Hf. revert init. induction l as [|x l IH]; intros init Hinit; [done|].
  simpl. apply IH. right.
  destruct (Hf init x) as (p & -> & Hp).
  destruct Hinit as [->|Hinit]; [done | by apply starts_solid_app].
Qed.

Lemma attachments_text_empty_or_solid m :
  _get_attachments_text m = EmptyString ∨ starts_solid (_get_attachments_text m).
Proof.
  unfold _get_attachments_text.
  apply foldl_pieces_solid.
  - intros t [name url]. eexists. split; [done|]. by eexists _, _.
  - apply foldl_pieces_solid; [|by left].
    intros t [i url]. eexists. split; [done|]. by eexists _, _.
Qed.

(** The value the add command takes from a replied-to message is empty
    as soon as it is empty after trimming. *)
Lemma reply_value_strip_empty m :
  PyStr.strip (PyStr.strip (resolved_content m) ++ _get_attachments_text m)
  = EmptyString ->
  PyStr.strip (resolved_content m) ++ _get_attachments_text m = EmptyString.
Proof.
  intros Hstrip.
  destruct (strip_empty_or_solid (resolved_content m)) as [Hc|Hc].
  - rewrite Hc in *. simpl in *.
    destruct (attachments_text_empty_or_solid m) as [Ha|Ha]; [done|].
    by apply strip_solid, starts_solid_nonempty in Ha.
  - eapply starts_solid_app, strip_solid, starts_solid_nonempty in Hc.
    by destruct Hc.
Qed.

(** *** The user data store *)

Section Store.

Variable constants : Constants.

Lemma retrieve_text_insert user key value (s : Bot) user' key' :
  retrieve_text user' key'
    (set_db (<[user := <[key := value]> (default ∅ (db s !! user))]> (db s)) s)
  = if bool_decide (user' = user ∧ key' = key) then Some value
    else retrieve_text user' key' s.
Proof.
  unfold retrieve_text; simpl.
  destruct (decide (user' = user)) as [->|Hu].
  - rewrite lookup_insert_eq; simpl.
    destruct (decide (key' = key)) as [->|Hk].
    + rewrite lookup_insert_eq. by rewrite bool_decide_eq_true_2.
    + rewrite lookup_insert_ne by done.
      rewrite bool_decide_eq_false_2; [done | intros [? ?]; congruence].
  - rewrite lookup_insert_ne by done.
    rewrite bool_decide_eq_false_2; [done | intros [? ?]; congruence].
Qed.

Lemma store_text_overwrite user key value env s :
  store_text constants user key value true env s
  = (Ret (result SUCCESS (SUCCESSFUL constants)),
     set_db (<[user := <[key := value]> (default ∅ (db s !! user))]> (db s)) s).
Proof.
  unfold store_text, try_except, bind, get, put, ret; simpl.
  by rewrite andb_false_r.
Qed.

Lemma store_text_present user key value v env s :
  retrieve_text user key s = Some v ->
  store_text constants user key value false env s
  = (Ret (result FAILURE (KEY_EXISTS_ADD constants)), s).
Proof.
  intros Hv. unfold retrieve_text in Hv.
  unfold store_text, try_except, bind, get, put, ret; simpl.
  by rewrite Hv, bool_decide_eq_true_2 by eauto.
Qed.

Lemma store_text_absent user key value env s :
  retrieve_text user key s = None ->
  store_text constants user key value false env s
  = (Ret (result SUCCESS (SUCCESSFUL constants)),
     set_db (<[user := <[key := value]> (default ∅ (db s !! user))]> (db s)) s).
Proof.
  intros Hv. unfold retrieve_text in Hv.
  unfold store_text, try_except, bind, get, put, ret; simpl.
  rewrite Hv, bool_decide_eq_false_2; [done|].
  intros [? ?]; discriminate.
Qed.

(** C1.  When [K] is present in [U]'s record, [store_text] without
    [overwrite] returns the failure [KEY_EXISTS_ADD] and leaves the whole
    state, hence the stored value, as it was.  With [overwrite], whether
    [K] is present or not, it succeeds, [retrieve_text U K] then returns
    the new value, and every other user and key reads as before.  So a
    second [store_text] without [overwrite] fails and leaves the value
    the first one stored under a key that was not there, and a second
    [store_text] with [overwrite] leaves its own value. *)
Theorem store_text_existing_key (U : Z) (K v2 : string) env (s : Bot) :
  (∀ v, retrieve_text U K s = Some v ->
        store_text constants U K v2 false env s
        = (Ret (result FAILURE (KEY_EXISTS_ADD constants)), s))
  ∧ (∃ s',
       store_text constants U K v2 true env s
       = (Ret (result SUCCESS (SUCCESSFUL constants)), s')
       ∧ retrieve_text U K s' = Some v2
       ∧ ∀ U' K', (U', K') ≠ (U, K) ->
                  retrieve_text U' K' s' = retrieve_text U' K' s)
  ∧ (∀ v env0 s0,
       ∃ r1 s1,
         store_text constants U K v false env0 s0 = (Ret r1, s1)
         ∧ store_text constants U K v2 false env s1
           = (Ret (result FAILURE (KEY_EXISTS_ADD constants)), s1)
         ∧ (retrieve_text U K s0 = None ->
            r1 = result SUCCESS (SUCCESSFUL constants)
            ∧ retrieve_text U K s1 = Some v))
  ∧ (∀ v env0 s0,
       ∃ s1 s2,
         store_text constants U K v true env0 s0
         = (Ret (result SUCCESS (SUCCESSFUL constants)), s1)
         ∧ retrieve_text U K s1 = Some v
         ∧ store_text constants U K v2 true env s1
           = (Ret (result SUCCESS (SUCCESSFUL constants)), s2)
         ∧ retrieve_text U K s2 = Some v2).
Proof.
  assert (∀ value (s0 : Bot),
            retrieve_text U K
              (set_db (<[U := <[K := value]> (default ∅ (db s0 !! U))]> (db s0)) s0)
            = Some value) as Hread.
  { intros value s0. rewrite retrieve_text_insert.
    by rewrite bool_decide_eq_true_2. }
  split; [|split; [|split]].
  - intros v Hv. by eapply store_text_present.
  - eexists. split; [apply store_text_overwrite|]. split; [apply Hread|].
    intros U' K' Hne. rewrite retrieve_text_insert.
    rewrite bool_decide_eq_false_2; [done|]. intros [-> ->]. by apply Hne.
  - intros v env0 s0.
    destruct (retrieve_text U K s0) as [v0|] eqn:Hv0.
    + eexists _, _. split; [by eapply store_text_present|].
      split; [by eapply store_text_present | done].
    + eexists _, _. split; [by apply store_text_absent|].
      split; [eapply store_text_present; apply Hread|].
      intros _. split; [done | apply Hread].
  - intros v env0 s0. eexists _, _.
    split; [apply store_text_overwrite|]. split; [apply Hread|].
    split; [apply store_text_overwrite | apply Hread].
Qed.

(** [store_text] returns: its [except] clause has nothing to catch. *)
Lemma store_text_no_raise user key value (overwrite : bool) env s :
  ∃ r s', store_text constants user key value overwrite env s = (Ret r, s').
Proof.
  destruct overwrite; [eexists _, _; apply store_text_overwrite|].
  destruct (retrieve_text user key s) as [v|] eqn:Hv.
  - eexists _, _. by eapply store_text_present.
  - eexists _, _. by apply store_text_absent.
Qed.

End Store.

(** *** The add command *)

Section Add.

Variable constants : Constants.

(** C2, as the code has it.  The emptiness check of a stored value is
    made by the add command, not by [store_text].  When the command
    consists of the command name and a key and replies to a message,
    the value is that message's trimmed content followed by the text
    for its attachments and stickers: if it is empty after trimming,
    the handler returns the failure [EMPTY_MESSAGE] and leaves the state
    as it was, and otherwise the handler does what [store_text] does with
    that value.  When the text of the command has more than two tokens,
    the value is the join of the tokens after the key, which is not empty
    after trimming, and the handler does what [store_text] does with it.
    When there is no value at all, the command being its name alone,
    replying to a message or not, or its name and a key without a
    replied-to message, the handler returns [INVALID_ARGS] and leaves the
    state as it was. *)
Theorem add_rejects_empty_value :
  (∀ overwrite user (args : list string) reply m env s,
     length args = 2%nat ->
     resolved reply = Some m ->
     PyStr.strip (PyStr.strip (resolved_content m) ++ _get_attachments_text m)
     = EmptyString ->
     _handle_add constants overwrite user args (Some reply) env s
     = (Ret (result FAILURE (EMPTY_MESSAGE constants)), s))
  ∧ (∀ cmd,
       (2 < length (PyStr.split cmd))%nat ->
       PyStr.strip (PyStr.join " " (drop 2 (PyStr.split cmd))) ≠ EmptyString)
  ∧ (∀ overwrite user (args : list string) reply env s,
       length args = 1%nat ∨ (length args = 2%nat ∧ reply = None) ->
       _handle_add constants overwrite user args reply env s
       = (Ret (result INVALID_ARGS (WRONG_ARGS_ADD constants)), s))
  ∧ (∀ overwrite user (args : list string) reply key env s,
       (2 < length args)%nat ->
       args !! 1%nat = Some key ->
       _handle_add constants overwrite user args reply env s
       = store_text constants (id user) key (PyStr.join " " (drop 2 args))
                    overwrite env s)
  ∧ (∀ overwrite user (args : list string) reply m key env s,
       length args = 2%nat ->
       args !! 1%nat = Some key ->
       resolved reply = Some m ->
       PyStr.strip (PyStr.strip (resolved_content m) ++ _get_attachments_text m)
       ≠ EmptyString ->
       _handle_add constants overwrite user args (Some reply) env s
       = store_text constants (id user) key
           (PyStr.strip (resolved_content m) ++ _get_attachments_text m)
           overwrite env s).
Proof.
  split; [|split; [|split; [|split]]].
  - intros overwrite user args reply m env s Hlen Hres Hempty.
    apply reply_value_strip_empty in Hempty.
    unfold _handle_add. rewrite Hlen. simpl.
    unfold try_except, bind, resolved_of. rewrite Hres. simpl.
    by rewrite Hempty.
  - intros cmd Hlen.
    destruct (drop 2 (PyStr.split cmd)) as [|t ts] eqn:Hdrop.
    { apply (f_equal length) in Hdrop. rewrite length_drop in Hdrop.
      simpl in Hdrop. lia. }
    apply starts_solid_nonempty, strip_solid, join_solid.
    apply (split_tokens_solid cmd).
    eapply (subseteq_drop 2). rewrite Hdrop. by left.
  - intros overwrite user args reply env s [Hlen|[Hlen ->]];
      unfold _handle_add; by rewrite Hlen.
  - intros overwrite user args reply key env s Hlen Hkey.
    destruct args as [|a [|k [|w ws]]]; simpl in Hlen; try lia.
    injection Hkey as ->.
    destruct (store_text_no_raise constants (id user) key
                (PyStr.join " " (drop 2 (a :: key :: w :: ws)))
                overwrite env s) as (r & s' & Hst).
    unfold _handle_add. cbn [length Nat.eqb orb andb].
    unfold try_except, bind, index, ret.
    change ((a :: key :: w :: ws) !! 1%nat) with (Some key).
    cbv beta iota. by rewrite Hst.
  - intros overwrite user args reply m key env s Hlen Hkey Hres Hvalue.
    destruct args as [|a [|k [|w ws]]]; simpl in Hlen; try lia.
    injection Hkey as ->.
    remember (PyStr.strip (resolved_content m) ++ _get_attachments_text m)
      as text eqn:Htext.
    assert (PyStr.is_empty text = false) as Hne.
    { destruct text; [|done]. by destruct Hvalue. }
    destruct (store_text_no_raise constants (id user) key text
                overwrite env s) as (r & s' & Hst).
    unfold _handle_add. cbn [length Nat.eqb orb andb].
    rewrite bool_decide_eq_false_2 by done. cbn [andb].
    unfold try_except, bind, resolved_of, index, ret. rewrite Hres.
    cbv beta iota. rewrite <- Htext, Hne.
    change ([a; key] !! 1%nat) with (Some key). cbv beta iota.
    by rewrite Hst.
Qed.

End Add.

(** C2 as stated fails on [store_text]: a value of white space only, under
    a key that is not there yet, is stored and reported as a success. *)
Lemma store_text_accepts_blank_value :
  ∃ s',
    store_text Sample.constants 42 "k" "  " false (Sample.env 0) Sample.bot
    = (Ret (result SUCCESS (SUCCESSFUL Sample.constants)), s')
    ∧ PyStr.strip "  " = EmptyString
    ∧ retrieve_text 42 "k" Sample.bot = None
    ∧ retrieve_text 42 "k" s' = Some "  ".
Proof.
  eexists. split; [by apply store_text_absent|].
  split; [done|]. split; [done|].
  rewrite retrieve_text_insert. by rewrite bool_decide_eq_true_2.
Qed.

Lemma add_rejects_empty_value_witness :
  _handle_add Sample.constants false (mkUser 42 false) ["add"; "k"]
    (Some (mkReference (Some (mkResolved 5 "   " [] []))))
    (Sample.env 0) Sample.bot
  = (Ret (result FAILURE (EMPTY_MESSAGE Sample.constants)), Sample.bot)
  ∧ PyStr.strip (PyStr.join " " (drop 2 (PyStr.split ";;add k    v "))) ≠ EmptyString
  ∧ _handle_add Sample.constants false (mkUser 42 false) ["add"]
      (Some (mkReference (Some (mkResolved 5 "   " [] []))))
      (Sample.env 0) Sample.bot
    = (Ret (result INVALID_ARGS (WRONG_ARGS_ADD Sample.constants)), Sample.bot).
Proof.
  split; [|split].
  - apply (proj1 (add_rejects_empty_value Sample.constants) false
             (mkUser 42 false) ["add"; "k"]
             (mkReference (Some (mkResolved 5 "   " [] [])))
             (mkResolved 5 "   " [] [])); reflexivity.
  - apply (proj1 (proj2 (add_rejects_empty_value Sample.constants))
             ";;add k    v ").
    vm_compute. lia.
  - apply (proj1 (proj2 (proj2 (add_rejects_empty_value Sample.constants)))
             false (mkUser 42 false) ["add"]).
    left. reflexivity.
Defined.

(** *** Backups *)

Section Backup.

Lemma create_backup_mkdir_raises env s e :
  mkdir_raises env = Some e -> create_backup env s = (Raise e, s).
Proof.
  intros Hm. unfold create_backup, bind, ask. simpl. by rewrite Hm.
Qed.

Lemma create_backup_written env s :
  mkdir_raises env = None ->
  write_fault env = NoFault ->
  create_backup env s
  = (Ret true,
     set_files (<[backup_path s env :=
                    copy_records (map_to_list (db s))
                                 (default ∅ (files s !! backup_path s env))]>
                  (files s)) s).
Proof.
  intros Hm Hw.
  unfold create_backup, bind, ask, get, try_except, write_backup, ret.
  simpl. rewrite Hm. simpl. by rewrite Hw.
Qed.

Lemma create_backup_fault env s :
  mkdir_raises env = None ->
  write_fault env ≠ NoFault ->
  create_backup env s
  = (Ret false, set_files (delete (backup_path s env) (files s)) s).
Proof.
  intros Hm Hw.
  unfold create_backup, bind, ask, get, try_except, write_backup, ret,
    path_exists, unlink.
  simpl. rewrite Hm. simpl.
  destruct (write_fault env) as [|e|n e]; [done| |]; simpl.
  - case_bool_decide as Hex; simpl; [done|].
    rewrite delete_id; [by destruct s|].
    by apply eq_None_not_Some.
  - rewrite bool_decide_eq_true_2 by (rewrite lookup_insert_eq; eauto).
    simpl. by rewrite delete_insert_eq.
Qed.

(** C8.  When the write of the snapshot raises, [create_backup] returns
    false and no file is left at the backup path, whereas a write that
    failed after the file was opened had left a partial file there; the
    other files and the database are as before. *)
Theorem failed_backup_leaves_no_file env s :
  mkdir_raises env = None ->
  write_fault env ≠ NoFault ->
  ∃ s',
    create_backup env s = (Ret false, s')
    ∧ files s' !! backup_path s env = None
    ∧ (∀ p, p ≠ backup_path s env -> files s' !! p = files s !! p)
    ∧ db s' = db s
    ∧ (∀ n e, write_fault env = FailAfter n e ->
         ∃ s1, write_backup (backup_path s env) env s = (Raise e, s1)
               ∧ is_Some (files s1 !! backup_path s env)).
Proof.
  intros Hm Hw. eexists. split; [by apply create_backup_fault|]. simpl.
  split; [apply lookup_delete_eq|].
  split; [by intros p Hp; rewrite lookup_delete_ne|].
  split; [done|].
  intros n e Hf. unfold write_backup. rewrite Hf. eexists. split; [done|].
  simpl. rewrite lookup_insert_eq. eauto.
Qed.

(** C3, as the code has it.  When the interval has elapsed,
    [_periodic_backup] attempts a snapshot and then sets [last_backup] to
    the current time, whether [create_backup] returned true or false (it
    returns false exactly when the write failed).  When the interval has
    not elapsed nothing happens.  When [create_backup] itself raises,
    which it does if the backup directory cannot be made, the exception
    goes through and the state is as before. *)
Theorem periodic_backup_stamps_every_attempt env s :
  (backup_interval s <= now env - last_backup s ->
   mkdir_raises env = None ->
   ∃ created s1,
     create_backup env s = (Ret created, s1)
     ∧ (created = true <-> write_fault env = NoFault)
     ∧ _periodic_backup env s = (Ret tt, set_last_backup (now env) s1)
     ∧ last_backup (_periodic_backup env s).2 = now env)
  ∧ (now env - last_backup s < backup_interval s ->
     _periodic_backup env s = (Ret tt, s))
  ∧ (∀ e, backup_interval s <= now env - last_backup s ->
          mkdir_raises env = Some e ->
          _periodic_backup env s = (Raise e, s)).
Proof.
  split; [|split].
  - intros Hint Hm.
    assert (Hrun : ∀ created s1,
               create_backup env s = (Ret created, s1) ->
               _periodic_backup env s = (Ret tt, set_last_backup (now env) s1)).
    { intros created s1 Hc.
      unfold _periodic_backup, bind, ask, get, put. simpl.
      rewrite (proj2 (Z.leb_le _ _) Hint). by rewrite Hc. }
    assert (write_fault env = NoFault ∨ write_fault env ≠ NoFault) as [Hw|Hw]
      by (destruct (write_fault env); [by left | by right | by right]).
    + exists true. eexists. split; [by apply create_backup_written|].
      split; [done|]. erewrite Hrun by (by apply create_backup_written).
      done.
    + exists false. eexists. split; [by apply create_backup_fault|].
      split; [done|]. erewrite Hrun by (by apply create_backup_fault).
      done.
  - intros Hint. unfold _periodic_backup, bind, ask, get. simpl.
    by rewrite (proj2 (Z.leb_gt _ _) Hint).
  - intros e Hint Hm. unfold _periodic_backup, bind, ask, get. simpl.
    rewrite (proj2 (Z.leb_le _ _) Hint).
    by rewrite (create_backup_mkdir_raises _ _ e).
Qed.

End Backup.

(** C3 as stated fails: the snapshot write of a due periodic backup fails,
    [create_backup] returns false, and [last_backup] moves from 0 to the
    current time all the same. *)
Lemma periodic_backup_failure_moves_last_backup :
  (create_backup (Sample.failing_env 90000) Sample.bot).1 = Ret false
  ∧ last_backup Sample.bot = 0
  ∧ last_backup (_periodic_backup (Sample.failing_env 90000) Sample.bot).2 = 90000.
Proof. by vm_compute. Qed.

Lemma failed_backup_leaves_no_file_witness :
  ∃ s',
    create_backup (Sample.failing_env 5) Sample.bot = (Ret false, s')
    ∧ files s' !! backup_path Sample.bot (Sample.failing_env 5) = None.
Proof.
  destruct (failed_backup_leaves_no_file (Sample.failing_env 5) Sample.bot)
    as (s' & Hc & Hf & _); [reflexivity | discriminate |].
  by exists s'.
Defined.

Lemma periodic_backup_stamps_every_attempt_witness :
  last_backup (_periodic_backup (Sample.failing_env 90000) Sample.bot).2 = 90000.
Proof.
  destruct (proj1 (periodic_backup_stamps_every_attempt
                     (Sample.failing_env 90000) Sample.bot))
    as (created & s1 & _ & _ & _ & Hl); [vm_compute; discriminate | reflexivity |].
  exact Hl.
Defined.

(** *** The cooldown gate *)

(** Unfolds a handler and the operations under it, and follows every
    branch. *)
Ltac run_handler :=
  intros;
  unfold _handle_add, _handle_saved, _handle_delete, _handle_delete_me,
    _handle_rename, _handle_text_transform, _handle_mock, _handle_steal,
    _handle_deepfry, _handle_blacklist_add, _handle_blacklist_remove,
    _handle_backup, requires_admin, store_text, delete_key, create_backup,
    write_backup, unlink, resolved_of, index, int, on_db, lift_exc,
    try_except, bind, ret, raise, get, put, ask in *;
  simpl;
  repeat (case_match; simpl in *; simplify_eq);
  try done.

Section Cooldown.

Variable constants : Constants.
Variable cmds : Plugins.

Lemma check_cooldown_rejects user_id command env s :
  on_cooldown constants command user_id env s = true ->
  _check_cooldown constants user_id command env s = (Ret false, s).
Proof.
  unfold on_cooldown, last_used, _check_cooldown.
  destruct (command_cooldowns s !! command) as [of_command|] eqn:Hc;
    simpl; [|done].
  rewrite Hc. simpl.
  destruct (of_command !! user_id) as [last|]; [|done].
  intros ->. by rewrite set_command_cooldowns_id.
Qed.

Lemma check_cooldown_passes user_id command env s :
  on_cooldown constants command user_id env s = false ->
  ∃ s1,
    _check_cooldown constants user_id command env s = (Ret true, s1)
    ∧ last_used command user_id s1 = Some (now env)
    ∧ db s1 = db s ∧ BLACKLIST s1 = BLACKLIST s ∧ files s1 = files s.
Proof.
  unfold on_cooldown, last_used, _check_cooldown.
  destruct (command_cooldowns s !! command) as [of_command|] eqn:Hc; simpl.
  - rewrite Hc. simpl.
    destruct (of_command !! user_id) as [last|].
    + intros ->. eexists. split; [done|]. simpl.
      by rewrite !lookup_insert_eq; simpl; rewrite lookup_insert_eq.
    + intros _. eexists. split; [done|]. simpl.
      by rewrite !lookup_insert_eq; simpl; rewrite lookup_insert_eq.
  - intros _. rewrite lookup_insert_eq. simpl. rewrite lookup_empty.
    eexists. split; [done|]. simpl.
    by rewrite !lookup_insert_eq; simpl; rewrite lookup_insert_eq.
Qed.

Lemma lookup_command_Forall (P : Handler -> Prop) table command handler :
  Forall (fun entry => P entry.2) table ->
  lookup_command table command = Some handler ->
  P handler.
Proof.
  induction 1 as [|[name h] rest Hh _ IH]; simpl; [done|].
  destruct (String.eqb name command); [|done].
  by intros [= <-].
Qed.

(** No handler of the registry touches the cooldown table. *)
Lemma handlers_keep_cooldowns command handler :
  lookup_command (commands constants cmds) command = Some handler ->
  ∀ user args reply, keeps command_cooldowns (handler user args reply).
Proof.
  apply (lookup_command_Forall
           (fun h => ∀ user args reply, keeps command_cooldowns (h user args reply))).
  unfold commands, keeps.
  repeat (apply Forall_cons; split; [simpl; run_handler|]).
  by apply Forall_nil.
Qed.

Lemma handle_command_rejected user cmd reply command rest handler env s :
  tokens_of cmd = command :: rest ->
  lookup_command (commands constants cmds) command = Some handler ->
  on_cooldown constants command (id user) env s = true ->
  handle_command constants cmds user cmd reply env s
  = (Ret (Some (result COOLDOWN (cooldown_message command))), s).
Proof.
  intros Htok Hh Hcd. unfold handle_command. fold (tokens_of cmd).
  rewrite Htok, Hh. unfold try_except, bind.
  by rewrite check_cooldown_rejects.
Qed.

Lemma handle_command_dispatched user cmd reply command rest handler env s s1 :
  tokens_of cmd = command :: rest ->
  lookup_command (commands constants cmds) command = Some handler ->
  _check_cooldown constants (id user) command env s = (Ret true, s1) ->
  handle_command constants cmds user cmd reply env s
  = dispatched (handler user (command :: rest) reply env s1).
Proof.
  intros Htok Hh Hcd. unfold handle_command. fold (tokens_of cmd).
  rewrite Htok, Hh. unfold try_except, bind. rewrite Hcd. simpl.
  by destruct (handler user (command :: rest) reply env s1) as [[r|e] s2].
Qed.

Lemma dispatched_state run : (dispatched run).2 = run.2.
Proof. by destruct run as [[r|e] s]. Qed.

(** An invocation that finds the gate open: the gate records the current
    time, the handler runs from the state so obtained, and the time is
    still recorded when [handle_command] returns. *)
Lemma handle_command_accepted user cmd reply command rest handler env s :
  tokens_of cmd = command :: rest ->
  lookup_command (commands constants cmds) command = Some handler ->
  on_cooldown constants command (id user) env s = false ->
  ∃ s1,
    _check_cooldown constants (id user) command env s = (Ret true, s1)
    ∧ last_used command (id user) s1 = Some (now env)
    ∧ handle_command constants cmds user cmd reply env s
      = dispatched (handler user (command :: rest) reply env s1)
    ∧ last_used command (id user)
        (handle_command constants cmds user cmd reply env s).2
      = Some (now env).
Proof.
  intros Htok Hh Hcd.
  destruct (check_cooldown_passes _ _ _ _ Hcd) as (s1 & Hcheck & Hrec & _).
  exists s1. split; [done|]. split; [done|].
  split; [by eapply handle_command_dispatched|].
  erewrite handle_command_dispatched by done.
  rewrite dispatched_state. unfold last_used.
  by rewrite (handlers_keep_cooldowns _ _ Hh).
Qed.

Lemma on_cooldown_within command user_id last env s :
  last_used command user_id s = Some last ->
  now env - last < COMMAND_COOLDOWN constants ->
  on_cooldown constants command user_id env s = true.
Proof. intros Hl Hlt. unfold on_cooldown. rewrite Hl. by apply Z.ltb_lt. Qed.

Lemma on_cooldown_elapsed command user_id last env s :
  last_used command user_id s = Some last ->
  COMMAND_COOLDOWN constants <= now env - last ->
  on_cooldown constants command user_id env s = false.
Proof. intros Hl Hge. unfold on_cooldown. rewrite Hl. by apply Z.ltb_ge. Qed.

(** C4.  When a known command gets through the cooldown gate, the
    current time is recorded for the command and the user in the state
    the handler is then run from; it is still recorded when
    [handle_command] returns, whatever the handler returned or raised;
    and so the same user's next invocation of the command, less than
    [COMMAND_COOLDOWN] later, is turned down. *)
Theorem cooldown_recorded_before_handler
    user cmd reply command rest handler env s :
  tokens_of cmd = command :: rest ->
  lookup_command (commands constants cmds) command = Some handler ->
  on_cooldown constants command (id user) env s = false ->
  ∃ s1 s2,
    _check_cooldown constants (id user) command env s = (Ret true, s1)
    ∧ last_used command (id user) s1 = Some (now env)
    ∧ handler user (command :: rest) reply env s1
      = ((handler user (command :: rest) reply env s1).1, s2)
    ∧ handle_command constants cmds user cmd reply env s
      = dispatched (handler user (command :: rest) reply env s1)
    ∧ (handle_command constants cmds user cmd reply env s).2 = s2
    ∧ last_used command (id user) s2 = Some (now env)
    ∧ ∀ cmd' reply' rest' env',
        tokens_of cmd' = command :: rest' ->
        now env' - now env < COMMAND_COOLDOWN constants ->
        handle_command constants cmds user cmd' reply' env' s2
        = (Ret (Some (result COOLDOWN (cooldown_message command))), s2).
Proof.
  intros Htok Hh Hcd.
  destruct (handle_command_accepted user cmd reply _ _ _ env s Htok Hh Hcd)
    as (s1 & Hcheck & Hrec & Hrun & Hlast).
  exists s1. eexists. split; [done|]. split; [done|].
  split; [by apply surjective_pairing|].
  split; [done|].
  split; [by rewrite Hrun, dispatched_state|].
  rewrite Hrun, dispatched_state in Hlast.
  split; [done|].
  intros cmd' reply' rest' env' Htok' Hlt.
  eapply handle_command_rejected; [done..|].
  by eapply on_cooldown_within.
Qed.

(** C5.  An invocation of a known command that gets through the gate is
    an accepted one, and its time is the timestamp recorded for the
    command and the user.  With a timestamp [last] recorded: an
    invocation less than [COMMAND_COOLDOWN] after [last] gets the result
    [COOLDOWN] and leaves the state, hence the recorded timestamp, as it
    was; an invocation at least [COMMAND_COOLDOWN] after [last] gets
    through the gate, which records the current time, and its result is
    that of the handler. *)
Theorem cooldown_gate user cmd reply command rest handler last env s :
  tokens_of cmd = command :: rest ->
  lookup_command (commands constants cmds) command = Some handler ->
  last_used command (id user) s = Some last ->
  (now env - last < COMMAND_COOLDOWN constants ->
   handle_command constants cmds user cmd reply env s
   = (Ret (Some (result COOLDOWN (cooldown_message command))), s))
  ∧ (COMMAND_COOLDOWN constants <= now env - last ->
     ∃ s1,
       _check_cooldown constants (id user) command env s = (Ret true, s1)
       ∧ last_used command (id user) s1 = Some (now env)
       ∧ handle_command constants cmds user cmd reply env s
         = dispatched (handler user (command :: rest) reply env s1)
       ∧ last_used command (id user)
           (handle_command constants cmds user cmd reply env s).2
         = Some (now env))
  ∧ (∀ cmd0 reply0 rest0 env0 s0,
       tokens_of cmd0 = command :: rest0 ->
       on_cooldown constants command (id user) env0 s0 = false ->
       last_used command (id user)
         (handle_command constants cmds user cmd0 reply0 env0 s0).2
       = Some (now env0)).
Proof.
  intros Htok Hh Hlast. split; [|split].
  - intros Hlt. eapply handle_command_rejected; [done..|].
    by eapply on_cooldown_within.
  - intros Hge. eapply handle_command_accepted; [done..|].
    by eapply on_cooldown_elapsed.
  - intros cmd0 reply0 rest0 env0 s0 Htok0 Hcd0.
    by destruct (handle_command_accepted user cmd0 reply0 _ _ _ env0 s0
                   Htok0 Hh Hcd0) as (s1 & _ & _ & _ & ?).
Qed.

End Cooldown.

Lemma cooldown_recorded_before_handler_witness :
  last_used "add" 42
    (handle_command Sample.constants Sample.cmds (mkUser 42 false)
       ";;add k v" None (Sample.env 100) Sample.bot).2
  = Some 100.
Proof.
  destruct (cooldown_recorded_before_handler Sample.constants Sample.cmds
              (mkUser 42 false) ";;add k v" None "add" ["k"; "v"]
              (_handle_add Sample.constants false) (Sample.env 100) Sample.bot)
    as (s1 & s2 & _ & _ & _ & _ & <- & Hlast & _); [reflexivity..|].
  exact Hlast.
Defined.

Lemma cooldown_gate_witness :
  handle_command Sample.constants Sample.cmds (mkUser 42 false)
    ";;add k v" None (Sample.env 102) Sample.cooling
  = (Ret (Some (result COOLDOWN (cooldown_message "add"))), Sample.cooling)
  ∧ last_used "add" 42
      (handle_command Sample.constants Sample.cmds (mkUser 42 false)
         ";;add k v" None (Sample.env 103) Sample.cooling).2
    = Some 103.
Proof.
  split.
  - apply (proj1 (cooldown_gate Sample.constants Sample.cmds
                    (mkUser 42 false) ";;add k v" None "add" ["k"; "v"]
                    (_handle_add Sample.constants false) 100
                    (Sample.env 102) Sample.cooling
                    eq_refl eq_refl eq_refl)).
    simpl. lia.
  - destruct (proj1 (proj2 (cooldown_gate Sample.constants Sample.cmds
                       (mkUser 42 false) ";;add k v" None "add" ["k"; "v"]
                       (_handle_add Sample.constants false) 100
                       (Sample.env 103) Sample.cooling
                       eq_refl eq_refl eq_refl)))
      as (s1 & _ & _ & _ & Hlast); [simpl; lia|].
    exact Hlast.
Defined.

(** *** Sending the response *)

Section Response.

Lemma send_response_cooldown msg response env s :
  status response = COOLDOWN ->
  send_response msg response env s = (Ret [], s).
Proof.
  intros Hst. unfold send_response. by rewrite Hst.
Qed.

(** C9.  [send_response] sends nothing for a result of status
    [COOLDOWN]; it sends a reply only for [SUCCESS] with a message that
    is not empty and for [FAILURE], [NO_PERMISSION] and [INVALID_ARGS],
    for each of which one reply goes to the message itself; so a command
    that is turned down by the cooldown gate gets no reply, although its
    result carries the cooldown message. *)
Theorem cooldown_result_gets_no_reply :
  (∀ msg response env s,
     status response = COOLDOWN ->
     send_response msg response env s = (Ret [], s))
  ∧ (∀ msg response env s replies s',
       send_response msg response env s = (Ret replies, s') ->
       replies ≠ [] ->
       (status response = SUCCESS ∧ truthy (message response) = true)
       ∨ status response ∈ [FAILURE; NO_PERMISSION; INVALID_ARGS])
  ∧ (∀ msg response env s,
       status response ∈ [FAILURE; NO_PERMISSION; INVALID_ARGS] ->
       ∃ body, send_response msg response env s
               = (Ret [mkReply (message_id msg) body], s))
  ∧ (∀ constants cmds msg command rest handler env s,
       tokens_of (PyStr.strip (content msg)) = command :: rest ->
       lookup_command (commands constants cmds) command = Some handler ->
       on_cooldown constants command (id (author msg)) env s = true ->
       handle_command constants cmds (author msg) (PyStr.strip (content msg))
                      (reference msg) env s
       = (Ret (Some (result COOLDOWN (cooldown_message command))), s)
       ∧ handle_bot_command constants cmds msg env s = (Ret [], s)).
Proof.
  split; [exact send_response_cooldown|]. split; [|split].
  - intros msg response env s replies s' Hsend Hne.
    unfold send_response in Hsend.
    destruct (bool_decide (status response = SUCCESS)
              && truthy (message response)) eqn:Hs.
    { left. apply andb_true_iff in Hs as [Hs ?].
      by apply bool_decide_eq_true in Hs. }
    case_bool_decide as Hin; [by right|].
    by inversion Hsend; subst.
  - intros msg response env s Hin. unfold send_response.
    rewrite (bool_decide_eq_true_2 _ Hin).
    replace (bool_decide (status response = SUCCESS)) with false; [by eexists|].
    symmetry. apply bool_decide_eq_false. intros Hs. rewrite Hs in Hin.
    rewrite !elem_of_cons, elem_of_nil in Hin.
    by destruct Hin as [?|[?|[?|?]]].
  - intros constants cmds msg command rest handler env s Htok Hh Hcd.
    pose proof (handle_command_rejected constants cmds (author msg) _
                  (reference msg) _ _ _ env s Htok Hh Hcd) as Hrej.
    split; [done|].
    unfold handle_bot_command, bind. rewrite Hrej.
    by apply send_response_cooldown.
Qed.

End Response.

Lemma cooldown_result_gets_no_reply_witness :
  handle_bot_command Sample.constants Sample.cmds
    (Sample.message_from 42 ";;add k v") (Sample.env 102) Sample.cooling
  = (Ret [], Sample.cooling).
Proof.
  apply (proj2 (proj2 (proj2 (proj2 cooldown_result_gets_no_reply))
                  Sample.constants Sample.cmds
                  (Sample.message_from 42 ";;add k v") "add" ["k"; "v"]
                  (_handle_add Sample.constants false)
                  (Sample.env 102) Sample.cooling
                  eq_refl eq_refl eq_refl)).
Defined.

(** *** The permission sets *)

Section Permissions.

Variable constants : Constants.
Variable cmds : Plugins.

Lemma list_remove_first_elem x y l : x ∈ list_remove_first y l -> x ∈ l.
Proof.
  induction l as [|z l IH]; simpl; [done|].
  case_bool_decide; [by right|].
  intros [->|?]%elem_of_cons; [by left | right; by apply IH].
Qed.

(** [blacklist_add] leaves the state as it is, or appends to the
    blacklist an identifier that is not an admin's. *)
Lemma blacklist_add_outcome user args reply env s :
  (_handle_blacklist_add constants user args reply env s).2 = s
  ∨ ∃ n, (n ∉ ADMINS constants)
         ∧ (_handle_blacklist_add constants user args reply env s).2
           = set_BLACKLIST (BLACKLIST s ++ [n]) s.
Proof.
  unfold _handle_blacklist_add, requires_admin.
  destruct (negb (is_admin constants (id user))); [by left|].
  destruct (negb (length args =? 2)%nat
            || negb (is_mention (nth 1 args EmptyString))); [by left|].
  unfold try_except, bind, index, int.
  destruct (args !! 1%nat) as [m|]; simpl; [|by left].
  destruct (PyStr.int (PyStr.slice 2 (-1) m)) as [n|]; simpl; [|by left].
  case_bool_decide as Hadmin; simpl; [by left|].
  case_bool_decide; simpl; [by left|].
  right. by exists n.
Qed.

(** [blacklist_remove] leaves the state as it is, or removes one
    occurrence of an identifier from the blacklist. *)
Lemma blacklist_remove_outcome user args reply env s :
  (_handle_blacklist_remove constants user args reply env s).2 = s
  ∨ ∃ n, (_handle_blacklist_remove constants user args reply env s).2
         = set_BLACKLIST (list_remove_first n (BLACKLIST s)) s.
Proof.
  unfold _handle_blacklist_remove, requires_admin.
  destruct (negb (is_admin constants (id user))); [by left|].
  destruct (negb (length args =? 2)%nat
            || negb (is_mention (nth 1 args EmptyString))); [by left|].
  unfold try_except, bind, index, int.
  destruct (args !! 1%nat) as [m|]; simpl; [|by left].
  destruct (PyStr.int (PyStr.slice 2 (-1) m)) as [n|]; simpl; [|by left].
  case_bool_decide; simpl; [|by left].
  right. by exists n.
Qed.

Lemma blacklist_add_disjoint user args reply env s :
  disjoint_permissions constants s ->
  disjoint_permissions constants
    (_handle_blacklist_add constants user args reply env s).2.
Proof.
  intros Hd.
  destruct (blacklist_add_outcome user args reply env s)
    as [->|(n & Hn & ->)]; [done|].
  intros u Hu. simpl. rewrite elem_of_app, list_elem_of_singleton.
  intros [Hin| ->]; [by eapply Hd | done].
Qed.

Lemma blacklist_remove_disjoint user args reply env s :
  disjoint_permissions constants s ->
  disjoint_permissions constants
    (_handle_blacklist_remove constants user args reply env s).2.
Proof.
  intros Hd.
  destruct (blacklist_remove_outcome user args reply env s)
    as [->|(n & ->)]; [done|].
  intros u Hu Hin. simpl in Hin.
  eapply Hd; [done|]. by eapply list_remove_first_elem.
Qed.

Lemma blacklist_add_admin_target user (args : list string) reply env s m a :
  args !! 1%nat = Some m ->
  PyStr.int (PyStr.slice 2 (-1) m) = Some a ->
  a ∈ ADMINS constants ->
  ∃ r, _handle_blacklist_add constants user args reply env s = (Ret r, s)
       ∧ status r ≠ SUCCESS
       ∧ (id user ∈ ADMINS constants -> length args = 2%nat ->
          is_mention m = true ->
          r = result FAILURE "You cannot blacklist another admin.").
Proof.
  intros Hm Ha Hadmin.
  unfold _handle_blacklist_add, requires_admin. simpl.
  case_bool_decide as Huser; simpl.
  2: { eexists. split; [done|]. split; [done|]. by intros ?. }
  rewrite nth_lookup, Hm. simpl.
  destruct (length args =? 2)%nat eqn:Hlen; simpl.
  2: { eexists. split; [done|]. split; [done|].
       intros _ Hl. rewrite Hl in Hlen. discriminate. }
  destruct (is_mention m) eqn:Hmention; simpl.
  2: { eexists. split; [done|]. split; [done|]. by intros _ _ ?. }
  unfold try_except, bind, index, int. rewrite Hm. simpl. rewrite Ha. simpl.
  rewrite bool_decide_eq_true_2 by done. simpl.
  eexists. split; [done|]. by split.
Qed.

(** Every handler of the registry keeps the two sets disjoint. *)
Lemma handlers_keep_disjoint command handler :
  lookup_command (commands constants cmds) command = Some handler ->
  ∀ user args reply env s,
    disjoint_permissions constants s ->
    disjoint_permissions constants (handler user args reply env s).2.
Proof.
  apply (lookup_command_Forall
           (fun h => ∀ user args reply env s,
                disjoint_permissions constants s ->
                disjoint_permissions constants (h user args reply env s).2)).
  unfold commands.
  repeat (apply Forall_cons; split;
          [simpl;
           first [ exact blacklist_add_disjoint
                 | exact blacklist_remove_disjoint
                 | intros user args reply env s Hd u Hu;
                   first [ by apply Hd
                         | match goal with
                           | |- _ ∉ BLACKLIST ?t =>
                               assert (BLACKLIST t = BLACKLIST s) as ->
                                 by (clear; run_handler)
                           end;
                           by apply Hd ] ]
          |]).
  by apply Forall_nil.
Qed.

Lemma handle_command_disjoint user cmd reply env s :
  disjoint_permissions constants s ->
  disjoint_permissions constants
    (handle_command constants cmds user cmd reply env s).2.
Proof.
  intros Hd. unfold handle_command. fold (tokens_of cmd).
  destruct (tokens_of cmd) as [|command rest]; [done|].
  destruct (lookup_command (commands constants cmds) command)
    as [handler|] eqn:Hh; [|done].
  unfold try_except, bind.
  destruct (on_cooldown constants command (id user) env s) eqn:Hcd.
  - by rewrite check_cooldown_rejects.
  - destruct (check_cooldown_passes constants _ _ _ _ Hcd)
      as (s1 & -> & _ & _ & Hb & _). simpl.
    assert (disjoint_permissions constants s1) as Hd1.
    { intros u Hu. rewrite Hb. by apply Hd. }
    pose proof (handlers_keep_disjoint _ _ Hh user (command :: rest)
                  reply env s1 Hd1) as Hd2.
    by destruct (handler user (command :: rest) reply env s1) as [[r|e] s2].
Qed.

Lemma reply_to_state target payload env s :
  (reply_to target payload env s).2 = s.
Proof. by destruct target. Qed.

Lemma send_response_state msg response env s :
  (send_response msg response env s).2 = s.
Proof.
  unfold send_response.
  destruct (bool_decide (status response = SUCCESS)
            && truthy (message response)).
  - destruct (message response); [apply reply_to_state | done].
  - case_bool_decide; [apply reply_to_state | done].
Qed.

Lemma handle_replacement_state message env s :
  (handle_replacement message env s).2 = s.
Proof.
  unfold handle_replacement, bind, index.
  destruct (_ !! 1%nat) as [key|]; simpl; [|done].
  destruct (retrieve_text _ key s) as [text|]; [|done].
  destruct (PyStr.is_empty text); [done | apply reply_to_state].
Qed.

Lemma on_message_disjoint message env s :
  disjoint_permissions constants s ->
  disjoint_permissions constants (on_message constants cmds message env s).2.
Proof.
  intros Hd. unfold on_message, bind, get. simpl.
  destruct ((id (author message) =? client_user s) || bot (author message));
    [done|].
  case_bool_decide.
  { destruct (PyStr.startswith _ _); done. }
  unfold process_message.
  destruct (REPLACE constants _); [by rewrite handle_replacement_state|].
  destruct (COMMAND constants _); [|done].
  unfold handle_bot_command, bind.
  pose proof (handle_command_disjoint (author message)
                (PyStr.strip (content message)) (reference message) env s Hd)
    as Hd1.
  destruct (handle_command _ _ _ _ _ _ _) as [[[r|]|e] s1]; simpl in *;
    [by rewrite send_response_state | done | done].
Qed.

(** C6.  [blacklist_add] naming an admin returns a result that is not a
    success, the failure [You cannot blacklist another admin.] when it
    is an admin who asks, and leaves the state, hence the blacklist, as
    it was; [blacklist_add] and [blacklist_remove] keep the admins and
    the blacklist disjoint; and so does the processing of any sequence
    of inbound messages: from a state in which no identifier is in both
    sets, none ever is. *)
Theorem admins_never_blacklisted :
  (∀ user (args : list string) reply env s m a,
     args !! 1%nat = Some m ->
     PyStr.int (PyStr.slice 2 (-1) m) = Some a ->
     a ∈ ADMINS constants ->
     ∃ r, _handle_blacklist_add constants user args reply env s = (Ret r, s)
          ∧ status r ≠ SUCCESS
          ∧ (id user ∈ ADMINS constants -> length args = 2%nat ->
             is_mention m = true ->
             r = result FAILURE "You cannot blacklist another admin."))
  ∧ (∀ user args reply env s,
       disjoint_permissions constants s ->
       disjoint_permissions constants
         (_handle_blacklist_add constants user args reply env s).2
       ∧ disjoint_permissions constants
           (_handle_blacklist_remove constants user args reply env s).2)
  ∧ (∀ inputs s,
       disjoint_permissions constants s ->
       disjoint_permissions constants (process_all constants cmds inputs s)).
Proof.
  split; [exact blacklist_add_admin_target|]. split.
  - intros user args reply env s Hd.
    split; [by apply blacklist_add_disjoint | by apply blacklist_remove_disjoint].
  - intros inputs. induction inputs as [|[message env] rest IH]; intros s Hd.
    + done.
    + simpl. by apply IH, on_message_disjoint.
Qed.

End Permissions.

Lemma admins_never_blacklisted_witness :
  ∃ r,
    _handle_blacklist_add Sample.constants (mkUser 1 false)
      ["blacklist_add"; "<@2>"] None (Sample.env 0) Sample.bot
    = (Ret r, Sample.bot)
    ∧ status r ≠ SUCCESS.
Proof.
  destruct (proj1 (admins_never_blacklisted Sample.constants Sample.cmds)
              (mkUser 1 false) ["blacklist_add"; "<@2>"] None
              (Sample.env 0) Sample.bot "<@2>" 2)
    as (r & Hr & Hs & _);
    [reflexivity | reflexivity | simpl; repeat constructor |].
  by exists r.
Defined.

(** *** The message router *)

Section Router.

Variable constants : Constants.
Variable cmds : Plugins.

Lemma on_message_blacklisted message env s :
  id (author message) ∈ BLACKLIST s ->
  on_message constants cmds message env s
  = (Ret (if (id (author message) =? client_user s) || bot (author message)
          then []
          else if PyStr.startswith ";;" (PyStr.strip (content message))
          then [mkReply (message_id message) (Text blacklisted_reply)]
          else []),
     s).
Proof.
  intros Hb. unfold on_message, bind, get. simpl.
  destruct ((id (author message) =? client_user s) || bot (author message));
    [done|].
  rewrite bool_decide_eq_true_2 by done.
  by destruct (PyStr.startswith _ _).
Qed.

(** C7.  For a message whose author is blacklisted, [on_message] returns
    without an exception and leaves the whole state as it was, the
    cooldown table included.  What it sends depends on the message, the
    blacklist and the identity of the client only: it is the same under
    any other constants, plugins, clock, database and cooldown table, so
    neither the dispatcher nor a handler has a part in it. *)
Theorem blacklisted_author_is_not_dispatched message env s :
  id (author message) ∈ BLACKLIST s ->
  ∃ replies,
    on_message constants cmds message env s = (Ret replies, s)
    ∧ command_cooldowns (on_message constants cmds message env s).2
      = command_cooldowns s
    ∧ ∀ constants' cmds' env' s',
        BLACKLIST s' = BLACKLIST s ->
        client_user s' = client_user s ->
        on_message constants' cmds' message env' s' = (Ret replies, s').
Proof.
  intros Hb. eexists. split; [by apply on_message_blacklisted|].
  split; [by rewrite on_message_blacklisted|].
  intros constants' cmds' env' s' Hbl Hcu.
  unfold on_message, bind, get. simpl. rewrite Hbl, Hcu.
  destruct ((id (author message) =? client_user s) || bot (author message));
    [done|].
  rewrite bool_decide_eq_true_2 by done.
  by destruct (PyStr.startswith _ _).
Qed.

(** C10.  For a message whose author is blacklisted and is neither a bot
    nor the client itself: when the trimmed text starts with the
    trigger marker, [on_message] sends one reply to the message, with
    the text [You are blacklisted from using this bot.]; otherwise it
    sends nothing; either way the state is as before. *)
Theorem blacklisted_author_reply message env s :
  bot (author message) = false ->
  id (author message) ≠ client_user s ->
  id (author message) ∈ BLACKLIST s ->
  on_message constants cmds message env s
  = (Ret (if PyStr.startswith ";;" (PyStr.strip (content message))
          then [mkReply (message_id message)
                        (Text "You are blacklisted from using this bot.")]
          else []),
     s).
Proof.
  intros Hbot Hself Hb. rewrite on_message_blacklisted by done.
  rewrite Hbot, orb_false_r.
  by rewrite (proj2 (Z.eqb_neq _ _) Hself).
Qed.

End Router.

Lemma blacklisted_author_is_not_dispatched_witness :
  ∃ replies,
    on_message Sample.constants Sample.cmds
      (Sample.message_from 7 ";;add k v") (Sample.env 0) Sample.bot
    = (Ret replies, Sample.bot).
Proof.
  destruct (blacklisted_author_is_not_dispatched Sample.constants Sample.cmds
              (Sample.message_from 7 ";;add k v") (Sample.env 0) Sample.bot)
    as (replies & Hr & _); [simpl; repeat constructor|].
  by exists replies.
Defined.

Lemma blacklisted_author_reply_witness :
  on_message Sample.constants Sample.cmds
    (Sample.message_from 7 "  ;;add k v") (Sample.env 0) Sample.bot
  = (Ret [mkReply 1000 (Text "You are blacklisted from using this bot.")],
     Sample.bot)
  ∧ on_message Sample.constants Sample.cmds
      (Sample.message_from 7 "hello ;;") (Sample.env 0) Sample.bot
    = (Ret [], Sample.bot).
Proof.
  split.
  - apply (blacklisted_author_reply Sample.constants Sample.cmds
             (Sample.message_from 7 "  ;;add k v") (Sample.env 0) Sample.bot);
      [reflexivity | simpl; lia | simpl; repeat constructor].
  - apply (blacklisted_author_reply Sample.constants Sample.cmds
             (Sample.message_from 7 "hello ;;") (Sample.env 0) Sample.bot);
      [reflexivity | simpl; lia | simpl; repeat constructor].
Defined.

Lemma store_text_existing_key_witness :
  store_text Sample.constants 42 "k" "new" false (Sample.env 0)
    (set_db {[ 42 := {[ "k" := "old" ]} ]} Sample.bot)
  = (Ret (result FAILURE (KEY_EXISTS_ADD Sample.constants)),
     set_db {[ 42 := {[ "k" := "old" ]} ]} Sample.bot)
  ∧ ∃ s',
      store_text Sample.constants 42 "k" "new" true (Sample.env 0) Sample.bot
      = (Ret (result SUCCESS (SUCCESSFUL Sample.constants)), s')
      ∧ retrieve_text 42 "k" s' = Some "new".
Proof.
  split.
  - refine (proj1 (store_text_existing_key Sample.constants 42 "k" "new"
                     (Sample.env 0)
                     (set_db {[ 42 := {[ "k" := "old" ]} ]} Sample.bot))
                  "old" _).
    vm_compute. reflexivity.
  - destruct (proj1 (proj2 (store_text_existing_key Sample.constants 42 "k"
                              "new" (Sample.env 0) Sample.bot)))
      as (s' & Hs & Hv & _).
    by exists s'.
Defined.

(** *** A run of the model

    User 42 stores a text and gets it back through the replacement
    trigger; a second [add] within the cooldown gets no reply, and one
    after it is told that the key exists. *)
Example add_then_replace :
  (Sample.run 1 100
     [ Sample.message_from 42 ";;add greeting hello world";
       Sample.message_from 42 ";;greeting";
       Sample.message_from 42 ";;add greeting again";
       Sample.message_from 42 ";;add greeting again" ]
     Sample.bot).1
  = [ Ret [mkReply 1000 (Text "Done.")];
      Ret [mkReply 1000 (Text "hello world")];
      Ret [];
      Ret [mkReply 1000 (Text "Key already exists.")] ].
Proof. vm_compute. reflexivity. Qed.


(** ** Further properties of the code *)

(** *** The user data store, continued *)

Section StoreMore.

Variable constants : Constants.

Lemma retrieve_text_delete user key (s : Bot) user' key' :
  retrieve_text user' key'
    (set_db (<[user := delete key (default ∅ (db s !! user))]> (db s)) s)
  = if bool_decide (user' = user ∧ key' = key) then None
    else retrieve_text user' key' s.
Proof.
  unfold retrieve_text; simpl.
  destruct (decide (user' = user)) as [->|Hu].
  - rewrite lookup_insert_eq; simpl.
    destruct (decide (key' = key)) as [->|Hk].
    + rewrite lookup_delete_eq. by rewrite bool_decide_eq_true_2.
    + rewrite lookup_delete_ne by done.
      rewrite bool_decide_eq_false_2; [done | intros [? ?]; congruence].
  - rewrite lookup_insert_ne by done.
    rewrite bool_decide_eq_false_2; [done | intros [? ?]; congruence].
Qed.

Lemma delete_key_present user key v env s :
  retrieve_text user key s = Some v ->
  delete_key user key env s
  = (Ret true,
     set_db (<[user := delete key (default ∅ (db s !! user))]> (db s)) s).
Proof.
  intros Hv. unfold retrieve_text in Hv.
  unfold delete_key, try_except, bind, get, put, ret; simpl.
  by rewrite Hv, bool_decide_eq_true_2 by eauto.
Qed.

Lemma delete_key_absent user key env s :
  retrieve_text user key s = None ->
  delete_key user key env s = (Ret false, s).
Proof.
  intros Hv. unfold retrieve_text in Hv.
  unfold delete_key, try_except, bind, get, put, ret; simpl.
  rewrite Hv, bool_decide_eq_false_2; [done|].
  intros [? ?]; discriminate.
Qed.

(** X1.  [store_text] succeeds exactly when the key is not there yet or
    [overwrite] is set; then the key reads as the new value and nothing
    else changes; otherwise the result is the failure [KEY_EXISTS_ADD]
    and the state is as before. *)
Theorem store_text_outcome user key value (overwrite : bool) env s :
  ∃ r s',
    store_text constants user key value overwrite env s = (Ret r, s')
    ∧ (status r = SUCCESS
       <-> retrieve_text user key s = None ∨ overwrite = true)
    ∧ (status r = SUCCESS ->
       retrieve_text user key s' = Some value
       ∧ ∀ user' key', (user', key') ≠ (user, key) ->
                       retrieve_text user' key' s' = retrieve_text user' key' s)
    ∧ (status r ≠ SUCCESS ->
       r = result FAILURE (KEY_EXISTS_ADD constants) ∧ s' = s).
Proof.
  assert (∀ s0 : Bot,
    retrieve_text user key
      (set_db (<[user := <[key := value]> (default ∅ (db s0 !! user))]> (db s0)) s0)
    = Some value
    ∧ ∀ user' key', (user', key') ≠ (user, key) ->
        retrieve_text user' key'
          (set_db (<[user := <[key := value]> (default ∅ (db s0 !! user))]> (db s0)) s0)
        = retrieve_text user' key' s0) as Hstored.
  { intros s0. split.
    - rewrite retrieve_text_insert. by rewrite bool_decide_eq_true_2.
    - intros user' key' Hne. rewrite retrieve_text_insert.
      rewrite bool_decide_eq_false_2; [done|]. intros [-> ->]. by apply Hne. }
  destruct overwrite.
  - eexists _, _. split; [apply store_text_overwrite|]. simpl.
    split; [by split; [right|]|]. split; [intros _; apply Hstored | done].
  - destruct (retrieve_text user key s) as [v|] eqn:Hv.
    + eexists _, _. split; [by eapply store_text_present|]. simpl.
      split; [split; [done | by intros [?|?]]|]. split; [done | done].
    + eexists _, _. split; [by apply store_text_absent|]. simpl.
      split; [by split; [left|]|]. split; [intros _; apply Hstored | done].
Qed.

(** X2.  [delete_key] returns true exactly when the key was there; after
    it the key is gone and nothing else has changed; when it returns
    false the state is as before; and a second [delete_key] of the same
    key returns false. *)
Theorem delete_key_outcome user key env s :
  ∃ (deleted : bool) s',
    delete_key user key env s = (Ret deleted, s')
    ∧ (deleted = true <-> is_Some (retrieve_text user key s))
    ∧ retrieve_text user key s' = None
    ∧ (∀ user' key', (user', key') ≠ (user, key) ->
                     retrieve_text user' key' s' = retrieve_text user' key' s)
    ∧ (deleted = false -> s' = s)
    ∧ ∀ env', delete_key user key env' s' = (Ret false, s').
Proof.
  destruct (retrieve_text user key s) as [v|] eqn:Hv.
  - eexists _, _. split; [by eapply delete_key_present|].
    assert (retrieve_text user key
              (set_db (<[user := delete key (default ∅ (db s !! user))]> (db s)) s)
            = None) as Hgone.
    { rewrite retrieve_text_delete. by rewrite bool_decide_eq_true_2. }
    split; [by split; [eauto|]|]. split; [done|]. split.
    { intros user' key' Hne. rewrite retrieve_text_delete.
      rewrite bool_decide_eq_false_2; [done|]. intros [-> ->]. by apply Hne. }
    split; [done|]. intros env'. by apply delete_key_absent.
  - eexists _, _. split; [by apply delete_key_absent|].
    split; [split; [done | by intros [? ?]]|]. split; [done|].
    split; [done|]. split; [done|]. intros env'. by apply delete_key_absent.
Qed.

(** X3.  Storing a value under a key that is not there and deleting the
    key again gives the user's record back as it was: [delete_key]
    returns true and the record, hence the list of keys, is the one
    before the [store_text]. *)
Theorem store_then_delete user key value (overwrite : bool) env env' s :
  retrieve_text user key s = None ->
  ∃ s1 s2,
    store_text constants user key value overwrite env s
    = (Ret (result SUCCESS (SUCCESSFUL constants)), s1)
    ∧ delete_key user key env' s1 = (Ret true, s2)
    ∧ record_of user s2 = record_of user s
    ∧ get_user_keys user s2 = get_user_keys user s
    ∧ ∀ user', user' ≠ user -> db s2 !! user' = db s !! user'.
Proof.
  intros Hv.
  assert (store_text constants user key value overwrite env s
          = (Ret (result SUCCESS (SUCCESSFUL constants)),
             set_db (<[user := <[key := value]> (default ∅ (db s !! user))]> (db s)) s))
    as Hstore.
  { destruct overwrite; [apply store_text_overwrite | by apply store_text_absent]. }
  eexists _, _. split; [exact Hstore|].
  split.
  { eapply delete_key_present. rewrite retrieve_text_insert.
    by rewrite bool_decide_eq_true_2. }
  assert (record_of user
            (set_db (<[user := delete key
                        (default ∅ (db (set_db (<[user := <[key := value]>
                           (default ∅ (db s !! user))]> (db s)) s) !! user))]>
                       (db (set_db (<[user := <[key := value]>
                           (default ∅ (db s !! user))]> (db s)) s)))
                    (set_db (<[user := <[key := value]>
                           (default ∅ (db s !! user))]> (db s)) s))
          = record_of user s) as Hrec.
  { unfold record_of. simpl. rewrite !lookup_insert_eq. simpl.
    rewrite delete_insert_eq. by apply delete_id. }
  split; [exact Hrec|]. split.
  - unfold get_user_keys. unfold record_of in Hrec. by rewrite Hrec.
  - intros user' Hne. simpl. by rewrite !lookup_insert_ne.
Qed.

(** X4.  The keys [get_user_keys] lists are the keys [retrieve_text]
    finds, each once; for a user without a record the list is empty. *)
Theorem get_user_keys_spec user s :
  (∀ key, key ∈ get_user_keys user s <-> is_Some (retrieve_text user key s))
  ∧ NoDup (get_user_keys user s)
  ∧ (db s !! user = None -> get_user_keys user s = []).
Proof.
  unfold get_user_keys, retrieve_text. split; [|split].
  - intros key. rewrite list_elem_of_fmap. split.
    + intros ([k v] & -> & Hin). apply elem_of_map_to_list in Hin. eauto.
    + intros [v Hv]. exists (key, v). split; [done|].
      by apply elem_of_map_to_list.
  - apply NoDup_fst_map_to_list.
  - intros ->. simpl. by rewrite map_to_list_empty.
Qed.

End StoreMore.

Lemma store_then_delete_witness :
  ∃ s2,
    delete_key 42 "k" (Sample.env 1)
      (store_text Sample.constants 42 "k" "v" false (Sample.env 0) Sample.bot).2
    = (Ret true, s2)
    ∧ get_user_keys 42 s2 = get_user_keys 42 Sample.bot.
Proof.
  destruct (store_then_delete Sample.constants 42 "k" "v" false
              (Sample.env 0) (Sample.env 1) Sample.bot)
    as (s1 & s2 & Hs & Hd & _ & Hk & _); [reflexivity|].
  exists s2. rewrite Hs. by split.
Defined.

(** *** Backups, continued *)

Section BackupMore.

Variable constants : Constants.

Lemma copy_records_lookup (records : list (Z * UserDb)) (backup_db : Db) user :
  NoDup records.*1 ->
  copy_records records backup_db !! user
  = match (list_to_map records : Db) !! user with
    | Some r => Some r
    | None => backup_db !! user
    end.
Proof.
  revert backup_db. induction records as [|[u r] records IH];
    intros backup_db Hnd; simpl.
  - by rewrite lookup_empty.
  - apply NoDup_cons in Hnd as [Hu Hnd].
    unfold copy_records in *. simpl. rewrite IH by done.
    destruct (decide (user = u)) as [->|Hne].
    + rewrite lookup_insert_eq.
      by rewrite (not_elem_of_list_to_map_1 records u Hu), lookup_insert_eq.
    + by rewrite !(lookup_insert_ne _ u user) by done.
Qed.

Lemma copy_records_all (d backup_db : Db) user :
  copy_records (map_to_list d) backup_db !! user
  = match d !! user with
    | Some r => Some r
    | None => backup_db !! user
    end.
Proof.
  rewrite copy_records_lookup by apply NoDup_fst_map_to_list.
  by rewrite list_to_map_to_list.
Qed.

Lemma copy_records_fresh (d : Db) : copy_records (map_to_list d) ∅ = d.
Proof.
  apply map_eq. intros user. rewrite copy_records_all.
  destruct (d !! user); [done | apply lookup_empty].
Qed.

(** X5.  A backup whose write goes through returns true and leaves, at
    the backup path, a file in which every user of the database has the
    record the database has; when there was no file at that path, the
    file is the database exactly.  The database and the other files are
    as before. *)
Theorem backup_is_snapshot env s :
  mkdir_raises env = None ->
  write_fault env = NoFault ->
  ∃ s' snapshot,
    create_backup env s = (Ret true, s')
    ∧ files s' !! backup_path s env = Some snapshot
    ∧ (∀ user r, db s !! user = Some r -> snapshot !! user = Some r)
    ∧ (∀ user, db s !! user = None ->
         snapshot !! user = default ∅ (files s !! backup_path s env) !! user)
    ∧ (files s !! backup_path s env = None -> snapshot = db s)
    ∧ (∀ p, p ≠ backup_path s env -> files s' !! p = files s !! p)
    ∧ db s' = db s.
Proof.
  intros Hm Hw. eexists _, _.
  split; [by apply create_backup_written|]. simpl.
  split; [apply lookup_insert_eq|].
  split; [by intros user r Hr; rewrite copy_records_all, Hr|].
  split; [by intros user Hr; rewrite copy_records_all, Hr|].
  split; [by intros ->; apply copy_records_fresh|].
  split; [by intros p Hp; rewrite lookup_insert_ne|].
  done.
Qed.

(** X6.  [copy_database] returns the database it is handed with every
    record of the live database written over it, the records of users the
    live database does not know being kept; the state is as before. *)
Theorem copy_database_spec new_db env s :
  ∃ copy,
    copy_database new_db env s = (Ret copy, s)
    ∧ (∀ user, copy !! user
               = match db s !! user with
                 | Some r => Some r
                 | None => new_db !! user
                 end)
    ∧ (new_db = ∅ -> copy = db s).
Proof.
  eexists. split; [done|]. split.
  - intros user. apply copy_records_all.
  - intros ->. apply copy_records_fresh.
Qed.

(** X7.  The backup command of an admin never raises and never touches
    [last_backup] or the database.  It answers with the success message
    when the write goes through, with [Database backup failed.] when the
    write fails, no file being left at the backup path then, and with
    [Failed to create a backup.] when the backup directory cannot be
    made, the state being as before then. *)
Theorem manual_backup_outcome user args reply env s :
  id user ∈ ADMINS constants ->
  ∃ r s',
    _handle_backup constants user args reply env s = (Ret r, s')
    ∧ last_backup s' = last_backup s
    ∧ db s' = db s
    ∧ (mkdir_raises env = None -> write_fault env = NoFault ->
       r = result SUCCESS "Database backup created successfully."
       ∧ is_Some (files s' !! backup_path s env))
    ∧ (mkdir_raises env = None -> write_fault env ≠ NoFault ->
       r = result FAILURE "Database backup failed."
       ∧ files s' !! backup_path s env = None)
    ∧ (∀ e, mkdir_raises env = Some e ->
            r = result FAILURE "Failed to create a backup." ∧ s' = s).
Proof.
  intros Hadmin. unfold _handle_backup, requires_admin. simpl.
  rewrite bool_decide_eq_true_2 by done. simpl.
  unfold try_except at 1. unfold bind at 1.
  destruct (mkdir_raises env) as [e|] eqn:Hm.
  { rewrite (create_backup_mkdir_raises env s e Hm). simpl.
    eexists _, _. split; [done|]. split; [done|]. split; [done|].
    split; [done|]. split; [done|]. by intros e' _. }
  assert (write_fault env = NoFault ∨ write_fault env ≠ NoFault) as [Hw|Hw]
    by (destruct (write_fault env); [by left | by right | by right]).
  - rewrite (create_backup_written env s Hm Hw). simpl.
    eexists _, _. split; [done|]. split; [done|]. split; [done|]. simpl.
    split; [by intros _ _; rewrite lookup_insert_eq; eauto|].
    split; [done | done].
  - rewrite (create_backup_fault env s Hm Hw). simpl.
    eexists _, _. split; [done|]. split; [done|]. split; [done|]. simpl.
    split; [done|]. split; [by intros _ _; rewrite lookup_delete_eq | done].
Qed.

Lemma periodic_backup_due env s :
  backup_interval s <= now env - last_backup s ->
  mkdir_raises env = None ->
  ∃ f, _periodic_backup env s
       = (Ret tt, set_last_backup (now env) (set_files f s)).
Proof.
  intros Hint Hm.
  unfold _periodic_backup, bind, ask, get, put. simpl.
  rewrite (proj2 (Z.leb_le _ _) Hint).
  assert (write_fault env = NoFault ∨ write_fault env ≠ NoFault) as [Hw|Hw]
    by (destruct (write_fault env); [by left | by right | by right]).
  - rewrite (create_backup_written env s Hm Hw). by eexists.
  - rewrite (create_backup_fault env s Hm Hw). by eexists.
Qed.

(** X8.  After a periodic backup that was due has run, a second call
    less than [backup_interval] later does nothing. *)
Theorem periodic_backup_waits env env' s :
  backup_interval s <= now env - last_backup s ->
  mkdir_raises env = None ->
  now env' - now env < backup_interval s ->
  _periodic_backup env' (_periodic_backup env s).2
  = (Ret tt, (_periodic_backup env s).2).
Proof.
  intros Hint Hm Hlt.
  destruct (periodic_backup_due env s Hint Hm) as [f ->]. simpl.
  unfold _periodic_backup at 1. unfold bind, ask, get. simpl.
  by rewrite (proj2 (Z.leb_gt _ _) Hlt).
Qed.

End BackupMore.

Lemma backup_is_snapshot_witness :
  ∃ s',
    create_backup (Sample.env 5) Sample.bot = (Ret true, s')
    ∧ files s' !! backup_path Sample.bot (Sample.env 5) = Some (db Sample.bot).
Proof.
  destruct (backup_is_snapshot (Sample.env 5) Sample.bot)
    as (s' & snapshot & Hc & Hf & _ & _ & Hs & _); [reflexivity..|].
  exists s'. split; [exact Hc|]. rewrite Hf. f_equal. by apply Hs.
Defined.

Lemma manual_backup_outcome_witness :
  ∃ s',
    _handle_backup Sample.constants (mkUser 1 false) ["backup"] None
      (Sample.failing_env 5) Sample.bot
    = (Ret (result FAILURE "Database backup failed."), s')
    ∧ files s' !! backup_path Sample.bot (Sample.failing_env 5) = None.
Proof.
  destruct (manual_backup_outcome Sample.constants (mkUser 1 false)
              ["backup"] None (Sample.failing_env 5) Sample.bot)
    as (r & s' & Hr & _ & _ & _ & Hfail & _); [simpl; repeat constructor|].
  destruct Hfail as [-> Hf]; [reflexivity | discriminate |].
  by exists s'.
Defined.

Lemma periodic_backup_waits_witness :
  _periodic_backup (Sample.env 90010)
    (_periodic_backup (Sample.env 90000) Sample.bot).2
  = (Ret tt, (_periodic_backup (Sample.env 90000) Sample.bot).2).
Proof.
  apply (periodic_backup_waits (Sample.env 90000) (Sample.env 90010) Sample.bot);
    [vm_compute; discriminate | reflexivity | vm_compute; reflexivity].
Defined.

(** *** The dispatcher, continued *)

Section DispatcherMore.

Variable constants : Constants.
Variable cmds : Plugins.

Lemma retrieve_text_db user key s s' :
  db s' = db s -> retrieve_text user key s' = retrieve_text user key s.
Proof. unfold retrieve_text. by intros ->. Qed.

Lemma check_cooldown_returns user_id command env s :
  ∃ (passed : bool) cooldowns,
    _check_cooldown constants user_id command env s
    = (Ret passed, set_command_cooldowns cooldowns s).
Proof.
  unfold _check_cooldown.
  destruct (default ∅ (_ !! command) !! user_id) as [last|]; [|by eexists _, _].
  destruct (_ <? _); by eexists _, _.
Qed.

(** The gate touches the timestamp of its own command and user only. *)
Lemma check_cooldown_frame user_id command env s command' user_id' :
  (command', user_id') ≠ (command, user_id) ->
  last_used command' user_id' (_check_cooldown constants user_id command env s).2
  = last_used command' user_id' s.
Proof.
  intros Hne.
  destruct (on_cooldown constants command user_id env s) eqn:Hcd.
  { by rewrite check_cooldown_rejects. }
  unfold _check_cooldown, last_used.
  assert (∀ (c : gmap string (gmap Z Z)) (m : gmap Z Z),
             c !! command = Some m ->
             (<[command := <[user_id := now env]> m]> c) !! command'
               ≫= (fun of_command => of_command !! user_id')
             = c !! command' ≫= (fun of_command => of_command !! user_id'))
    as Hins.
  { intros c m Hm. destruct (decide (command' = command)) as [->|Hc].
    - rewrite lookup_insert_eq, Hm. simpl.
      rewrite lookup_insert_ne; [done|]. intros ->. by apply Hne.
    - by rewrite lookup_insert_ne. }
  assert (∀ (c : gmap string (gmap Z Z)),
             c !! command = None ->
             (<[command := ∅]> c) !! command'
               ≫= (fun of_command => of_command !! user_id')
             = c !! command' ≫= (fun of_command => of_command !! user_id'))
    as Hnew.
  { intros c Hc. destruct (decide (command' = command)) as [->|Hc'].
    - by rewrite lookup_insert_eq, Hc.
    - by rewrite lookup_insert_ne. }
  unfold on_cooldown, last_used in Hcd.
  destruct (command_cooldowns s !! command) as [m|] eqn:Hm; simpl in *.
  - rewrite Hm. simpl.
    destruct (m !! user_id) as [last|]; [rewrite Hcd|]; simpl; by apply Hins.
  - rewrite lookup_insert_eq. simpl. rewrite lookup_empty. simpl.
    rewrite (Hins (<[command := ∅]> (command_cooldowns s)) ∅)
      by (by rewrite lookup_insert_eq).
    by apply Hnew.
Qed.

(** X9.  [handle_command] never raises.  It returns nothing exactly when
    the text has no token; for a name that is not in the registry it
    returns the failure [Unknown command.] and leaves the state, the
    cooldown table included, as it was. *)
Theorem handle_command_returns user cmd reply env s :
  ∃ r s',
    handle_command constants cmds user cmd reply env s = (Ret r, s')
    ∧ (r = None <-> tokens_of cmd = [])
    ∧ (∀ command rest,
         tokens_of cmd = command :: rest ->
         lookup_command (commands constants cmds) command = None ->
         r = Some (result FAILURE "Unknown command.") ∧ s' = s).
Proof.
  unfold handle_command. fold (tokens_of cmd).
  destruct (tokens_of cmd) as [|command rest].
  { eexists _, _. split; [done|]. by split. }
  generalize (commands constants cmds). intros table.
  destruct (lookup_command table command) as [handler|] eqn:Hh.
  - unfold try_except, bind.
    destruct (check_cooldown_returns (id user) command env s)
      as (passed & cooldowns & ->).
    destruct passed; simpl.
    + destruct (handler user (command :: rest) reply env _) as [[r|e] s'];
        (eexists _, _; split; [done|]; split; [by split|]);
        intros ? ? [= <- <-] Hn; congruence.
    + eexists _, _. split; [done|]. split; [by split|].
      intros ? ? [= <- <-] Hn; congruence.
  - eexists _, _. split; [done|]. split; [by split|].
    by intros ? ? _ _.
Qed.

(** X10.  The cooldown is kept for each command and each user apart: an
    invocation by one user of one command leaves the timestamp recorded
    for any other command or any other user as it was. *)
Theorem cooldown_is_per_command_and_user
    user cmd reply command rest env s command' user_id' :
  tokens_of cmd = command :: rest ->
  (command', user_id') ≠ (command, id user) ->
  last_used command' user_id'
    (handle_command constants cmds user cmd reply env s).2
  = last_used command' user_id' s.
Proof.
  intros Htok Hne.
  destruct (lookup_command (commands constants cmds) command)
    as [handler|] eqn:Hh.
  - destruct (on_cooldown constants command (id user) env s) eqn:Hcd.
    + by erewrite handle_command_rejected.
    + destruct (check_cooldown_passes constants _ _ _ _ Hcd)
        as (s1 & Hcheck & _).
      erewrite handle_command_dispatched by done.
      rewrite dispatched_state.
      pose proof (check_cooldown_frame (id user) command env s _ _ Hne) as Hf.
      rewrite Hcheck in Hf. simpl in Hf. rewrite <- Hf.
      unfold last_used. by rewrite (handlers_keep_cooldowns _ _ _ _ Hh).
  - unfold handle_command. fold (tokens_of cmd). by rewrite Htok, Hh.
Qed.

(** The run of an [add] or [add_o] command that gets through the gate
    and stores its text. *)
Lemma handle_command_add_stores
    user cmd reply (overwrite : bool) key w ws env s :
  tokens_of cmd = (if overwrite then "add_o" else "add") :: key :: w :: ws ->
  on_cooldown constants (if overwrite then "add_o" else "add") (id user) env s
  = false ->
  retrieve_text (id user) key s = None ∨ overwrite = true ->
  ∃ cooldowns,
    handle_command constants cmds user cmd reply env s
    = (Ret (Some (result SUCCESS (SUCCESSFUL constants))),
       set_db (<[id user := <[key := PyStr.join " " (w :: ws)]>
                   (default ∅ (db s !! id user))]> (db s))
              (set_command_cooldowns cooldowns s))
    ∧ cooldowns !! (if overwrite then "add_o" else "add")
        ≫= (fun of_command => of_command !! id user)
      = Some (now env).
Proof.
  intros Htok Hcd Hfree.
  destruct (check_cooldown_passes constants _ _ _ _ Hcd)
    as (s1 & Hcheck & Hrec & _).
  destruct (check_cooldown_returns (id user)
              (if overwrite then "add_o" else "add") env s)
    as (passed & cooldowns & Hret).
  rewrite Hcheck in Hret. injection Hret as _ ->.
  exists cooldowns. split; [|exact Hrec].
  assert (lookup_command (commands constants cmds)
            (if overwrite then "add_o" else "add")
          = Some (_handle_add constants overwrite)) as Hh
    by (by destruct overwrite).
  rewrite (handle_command_dispatched constants cmds user cmd reply _ _ _
             env s _ Htok Hh Hcheck).
  remember (PyStr.join " " (w :: ws)) as text eqn:Htext.
  remember (set_command_cooldowns cooldowns s) as s1 eqn:Hs1.
  assert (db s1 = db s) as Hdb by (by subst s1).
  assert (store_text constants (id user) key text overwrite env s1
          = (Ret (result SUCCESS (SUCCESSFUL constants)),
             set_db (<[id user := <[key := text]>
                         (default ∅ (db s1 !! id user))]> (db s1)) s1))
    as Hstore.
  { destruct Hfree as [Hnone| ->]; [|apply store_text_overwrite].
    destruct overwrite; [apply store_text_overwrite|].
    apply store_text_absent. by rewrite (retrieve_text_db _ _ s s1). }
  assert (_handle_add constants overwrite user
            ((if overwrite then "add_o" else "add") :: key :: w :: ws)
            reply env s1
          = (Ret (result SUCCESS (SUCCESSFUL constants)),
             set_db (<[id user := <[key := text]>
                         (default ∅ (db s1 !! id user))]> (db s1)) s1)) as ->.
  { unfold _handle_add.
    change (drop 2 (_ :: key :: w :: ws)) with (w :: ws). rewrite <- Htext.
    generalize (if overwrite then "add_o" else "add"). intros name.
    cbn [length Nat.eqb orb andb].
    unfold try_except, bind, index, ret.
    change ((name :: key :: w :: ws) !! 1%nat) with (Some key).
    cbv beta iota. by rewrite Hstore. }
  simpl. by rewrite Hdb.
Qed.

(** X11.  An [add] (or [add_o]) command with a key and at least one word
    of text, getting through the gate, stores under the key the words
    joined by single spaces and answers [SUCCESSFUL], provided the key is
    not there yet or the command is [add_o]; the time of the invocation
    is recorded. *)
Theorem add_command_stores_text
    user cmd reply (overwrite : bool) key w ws env s :
  tokens_of cmd = (if overwrite then "add_o" else "add") :: key :: w :: ws ->
  on_cooldown constants (if overwrite then "add_o" else "add") (id user) env s
  = false ->
  retrieve_text (id user) key s = None ∨ overwrite = true ->
  ∃ s',
    handle_command constants cmds user cmd reply env s
    = (Ret (Some (result SUCCESS (SUCCESSFUL constants))), s')
    ∧ retrieve_text (id user) key s' = Some (PyStr.join " " (w :: ws))
    ∧ last_used (if overwrite then "add_o" else "add") (id user) s'
      = Some (now env).
Proof.
  intros Htok Hcd Hfree.
  destruct (handle_command_add_stores user cmd reply overwrite key w ws env s
              Htok Hcd Hfree) as (cooldowns & -> & Hrec).
  eexists. split; [done|]. split.
  - unfold retrieve_text. simpl. rewrite lookup_insert_eq. simpl.
    by rewrite lookup_insert_eq.
  - exact Hrec.
Qed.

(** Every handler leaves the fixed part of the state alone. *)
Lemma handlers_keep_fixed_part command handler :
  lookup_command (commands constants cmds) command = Some handler ->
  ∀ user args reply, keeps fixed_part (handler user args reply).
Proof.
  apply (lookup_command_Forall
           (fun h => ∀ user args reply, keeps fixed_part (h user args reply))).
  unfold commands, keeps.
  repeat (apply Forall_cons; split; [simpl; run_handler|]).
  by apply Forall_nil.
Qed.

Lemma on_message_fixed_part message env s :
  fixed_part (on_message constants cmds message env s).2 = fixed_part s.
Proof.
  unfold on_message, bind, get. simpl.
  destruct ((id (author message) =? client_user s) || bot (author message));
    [done|].
  case_bool_decide.
  { destruct (PyStr.startswith _ _); done. }
  unfold process_message.
  destruct (REPLACE constants _); [by rewrite handle_replacement_state|].
  destruct (COMMAND constants _); [|done].
  unfold handle_bot_command, bind.
  assert (fixed_part (handle_command constants cmds (author message)
                        (PyStr.strip (content message)) (reference message)
                        env s).2
          = fixed_part s) as Hk.
  { unfold handle_command. fold (tokens_of (PyStr.strip (content message))).
    destruct (tokens_of _) as [|command rest]; [done|].
    destruct (lookup_command (commands constants cmds) command)
      as [handler|] eqn:Hh; [|done].
    unfold try_except, bind.
    destruct (check_cooldown_returns (id (author message)) command env s)
      as (passed & cooldowns & ->).
    destruct passed; simpl; [|done].
    pose proof (handlers_keep_fixed_part _ _ Hh (author message)
                  (command :: rest) (reference message) env
                  (set_command_cooldowns cooldowns s)) as Hk.
    by destruct (handler _ _ _ _ _) as [[r|e] s2]. }
  destruct (handle_command _ _ _ _ _ _ _) as [[[r|]|e] s1]; simpl in *;
    [by rewrite send_response_state | done | done].
Qed.

(** X12.  Whatever messages are processed, [last_backup] keeps its value,
    and so do the backup interval, the name of the database and the
    identity of the client: no command, the manual backup included, moves
    the schedule of the periodic backup. *)
Theorem messages_leave_backup_schedule inputs s :
  last_backup (process_all constants cmds inputs s) = last_backup s
  ∧ backup_interval (process_all constants cmds inputs s) = backup_interval s
  ∧ db_name (process_all constants cmds inputs s) = db_name s
  ∧ client_user (process_all constants cmds inputs s) = client_user s.
Proof.
  assert (fixed_part (process_all constants cmds inputs s) = fixed_part s) as H.
  { revert s. induction inputs as [|[message env] rest IH]; intros s; [done|].
    simpl. rewrite IH. apply on_message_fixed_part. }
  unfold fixed_part in H. by inversion H.
Qed.

End DispatcherMore.

Lemma cooldown_is_per_command_and_user_witness :
  last_used "add" 42
    (handle_command Sample.constants Sample.cmds (mkUser 43 false)
       ";;add k v" None (Sample.env 101) Sample.cooling).2
  = Some 100.
Proof.
  rewrite (cooldown_is_per_command_and_user Sample.constants Sample.cmds
             (mkUser 43 false) ";;add k v" None "add" ["k"; "v"]
             (Sample.env 101) Sample.cooling "add" 42);
    [reflexivity | reflexivity | discriminate].
Defined.

Lemma add_command_stores_text_witness :
  ∃ s',
    handle_command Sample.constants Sample.cmds (mkUser 42 false)
      ";;add k  hello   world " None (Sample.env 100) Sample.bot
    = (Ret (Some (result SUCCESS (SUCCESSFUL Sample.constants))), s')
    ∧ retrieve_text 42 "k" s' = Some "hello world".
Proof.
  destruct (add_command_stores_text Sample.constants Sample.cmds
              (mkUser 42 false) ";;add k  hello   world " None false
              "k" "hello" ["world"] (Sample.env 100) Sample.bot)
    as (s' & Hr & Hv & _); [reflexivity | reflexivity | by left |].
  by exists s'.
Defined.

(** *** The blacklist, continued *)

Section BlacklistMore.

Variable constants : Constants.
Variable cmds : Plugins.

Lemma list_remove_first_NoDup n l : NoDup l -> NoDup (list_remove_first n l).
Proof.
  induction 1 as [|x l Hx Hnd IH]; simpl; [constructor|].
  case_bool_decide; [done|].
  constructor; [|done]. intros Hin. by apply Hx, (list_remove_first_elem _ n).
Qed.

Lemma list_remove_first_gone n l : NoDup l -> n ∉ list_remove_first n l.
Proof.
  induction 1 as [|x l Hx Hnd IH]; simpl; [by intros ?%elem_of_nil|].
  case_bool_decide as Heq; [by subst|].
  intros [->|Hin]%elem_of_cons; [done | by apply IH].
Qed.

Lemma list_remove_first_app n l :
  n ∉ l -> list_remove_first n (l ++ [n])%list = l.
Proof.
  induction l as [|x l IH]; simpl; intros Hn.
  - by rewrite bool_decide_eq_true_2.
  - apply not_elem_of_cons in Hn as [Hne Hn].
    rewrite bool_decide_eq_false_2 by done. by rewrite IH.
Qed.

Lemma blacklist_step_NoDup l l' :
  blacklist_step constants l l' -> NoDup l -> NoDup l'.
Proof.
  intros [->|[(n & _ & Hn & ->)|(n & _ & ->)]] Hnd; [done| |].
  - apply NoDup_app. split; [done|]. split; [|apply NoDup_singleton].
    intros x Hx ->%list_elem_of_singleton. by apply Hn.
  - by apply list_remove_first_NoDup.
Qed.

(** An admin's [blacklist_add] with a well-formed mention. *)
Lemma blacklist_add_run user c m n reply env s :
  id user ∈ ADMINS constants ->
  is_mention m = true ->
  PyStr.int (PyStr.slice 2 (-1) m) = Some n ->
  _handle_blacklist_add constants user [c; m] reply env s
  = if bool_decide (n ∈ ADMINS constants)
    then (Ret (result FAILURE "You cannot blacklist another admin."), s)
    else if bool_decide (n ∈ BLACKLIST s)
    then (Ret (result FAILURE "User is already blacklisted."), s)
    else (Ret (result SUCCESS
                 ("User <@" ++ PyStr.of_Z n ++ "> has been blacklisted.")),
          set_BLACKLIST (BLACKLIST s ++ [n]) s).
Proof.
  intros Hadmin Hm Hn.
  unfold _handle_blacklist_add, requires_admin. cbn [is_admin].
  rewrite bool_decide_eq_true_2 by done.
  cbn [negb length Nat.eqb orb nth]. rewrite Hm. cbn [negb].
  unfold try_except, bind, index, int, get, put, ret.
  change ([c; m] !! 1%nat) with (Some m). cbv beta iota. rewrite Hn.
  cbv beta iota.
  case_bool_decide; [done|]. by case_bool_decide.
Qed.

(** An admin's [blacklist_remove] with a well-formed mention. *)
Lemma blacklist_remove_run user c m n reply env s :
  id user ∈ ADMINS constants ->
  is_mention m = true ->
  PyStr.int (PyStr.slice 2 (-1) m) = Some n ->
  _handle_blacklist_remove constants user [c; m] reply env s
  = if bool_decide (n ∈ BLACKLIST s)
    then (Ret (result SUCCESS
                 ("User <@" ++ PyStr.of_Z n
                  ++ "> has been removed from the blacklist.")),
          set_BLACKLIST (list_remove_first n (BLACKLIST s)) s)
    else (Ret (result FAILURE "User is not blacklisted."), s).
Proof.
  intros Hadmin Hm Hn.
  unfold _handle_blacklist_remove, requires_admin. cbn [is_admin].
  rewrite bool_decide_eq_true_2 by done.
  cbn [negb length Nat.eqb orb nth]. rewrite Hm. cbn [negb].
  unfold try_except, bind, index, int, get, put, ret.
  change ([c; m] !! 1%nat) with (Some m). cbv beta iota. rewrite Hn.
  cbv beta iota.
  by case_bool_decide.
Qed.

(** X13.  An admin's [blacklist_add] naming, by a well-formed mention, a
    user who is neither an admin nor blacklisted succeeds and appends the
    user to the blacklist; from then on a message of that user is not
    processed: it gets the blacklist reply when it starts with the
    trigger marker and nothing otherwise, the state staying as it is.
    Naming a user who is blacklisted already fails with [User is already
    blacklisted.] and changes nothing. *)
Theorem blacklist_add_takes_effect user c m n reply env s :
  id user ∈ ADMINS constants ->
  is_mention m = true ->
  PyStr.int (PyStr.slice 2 (-1) m) = Some n ->
  n ∉ ADMINS constants ->
  (n ∉ BLACKLIST s ->
   ∃ s',
     _handle_blacklist_add constants user [c; m] reply env s
     = (Ret (result SUCCESS
               ("User <@" ++ PyStr.of_Z n ++ "> has been blacklisted.")), s')
     ∧ BLACKLIST s' = (BLACKLIST s ++ [n])%list
     ∧ db s' = db s
     ∧ ∀ message env',
         id (author message) = n ->
         bot (author message) = false ->
         n ≠ client_user s ->
         on_message constants cmds message env' s'
         = (Ret (if PyStr.startswith ";;" (PyStr.strip (content message))
                 then [mkReply (message_id message) (Text blacklisted_reply)]
                 else []),
            s'))
  ∧ (n ∈ BLACKLIST s ->
     _handle_blacklist_add constants user [c; m] reply env s
     = (Ret (result FAILURE "User is already blacklisted."), s)).
Proof.
  intros Hadmin Hm Hn Hna.
  rewrite (blacklist_add_run user c m n reply env s Hadmin Hm Hn).
  rewrite (bool_decide_eq_false_2 _ Hna). split.
  - intros Hnb. rewrite (bool_decide_eq_false_2 _ Hnb).
    eexists. split; [done|]. split; [done|]. split; [done|].
    intros message env' Hid Hbot Hself.
    rewrite on_message_blacklisted.
    2: { simpl. rewrite Hid, elem_of_app, list_elem_of_singleton. by right. }
    simpl. rewrite Hbot, Hid, orb_false_r.
    by rewrite (proj2 (Z.eqb_neq _ _) Hself).
  - intros Hb. by rewrite (bool_decide_eq_true_2 _ Hb).
Qed.

(** X14.  An admin's [blacklist_remove] naming a blacklisted user
    succeeds and removes the first occurrence of the user from the
    blacklist, which unblocks the user when the list has no duplicates;
    naming a user who is not blacklisted fails with [User is not
    blacklisted.] and changes nothing. *)
Theorem blacklist_remove_takes_effect user c m n reply env s :
  id user ∈ ADMINS constants ->
  is_mention m = true ->
  PyStr.int (PyStr.slice 2 (-1) m) = Some n ->
  (n ∈ BLACKLIST s ->
   ∃ s',
     _handle_blacklist_remove constants user [c; m] reply env s
     = (Ret (result SUCCESS
               ("User <@" ++ PyStr.of_Z n
                ++ "> has been removed from the blacklist.")), s')
     ∧ BLACKLIST s' = list_remove_first n (BLACKLIST s)
     ∧ length (BLACKLIST s) = S (length (BLACKLIST s'))
     ∧ (NoDup (BLACKLIST s) -> is_blacklisted n s' = false)
     ∧ ∀ n', n' ≠ n -> (n' ∈ BLACKLIST s' <-> n' ∈ BLACKLIST s))
  ∧ (n ∉ BLACKLIST s ->
     _handle_blacklist_remove constants user [c; m] reply env s
     = (Ret (result FAILURE "User is not blacklisted."), s)).
Proof.
  intros Hadmin Hm Hn.
  rewrite (blacklist_remove_run user c m n reply env s Hadmin Hm Hn). split.
  - intros Hb. rewrite (bool_decide_eq_true_2 _ Hb).
    eexists. split; [done|]. split; [done|]. simpl. split; [|split].
    + clear -Hb. induction (BLACKLIST s) as [|x l IH]; simpl.
      { by apply elem_of_nil in Hb. }
      case_bool_decide as Hx; [done|]. simpl. f_equal. apply IH.
      apply elem_of_cons in Hb as [->|?]; done.
    + intros Hnd. apply bool_decide_eq_false. by apply list_remove_first_gone.
    + intros n' Hne. clear -Hne. induction (BLACKLIST s) as [|x l IH]; simpl.
      { done. }
      case_bool_decide as Hx.
      * subst x. rewrite elem_of_cons. split; [by right | by intros [?|?]].
      * rewrite !elem_of_cons. by rewrite IH.
  - intros Hnb. by rewrite (bool_decide_eq_false_2 _ Hnb).
Qed.

(** X15.  Blacklisting a user and removing the user again gives the
    blacklist back as it was. *)
Theorem blacklist_add_then_remove user c c' m n reply reply' env env' s :
  id user ∈ ADMINS constants ->
  is_mention m = true ->
  PyStr.int (PyStr.slice 2 (-1) m) = Some n ->
  n ∉ ADMINS constants ->
  n ∉ BLACKLIST s ->
  ∃ s1 s2,
    (_handle_blacklist_add constants user [c; m] reply env s).2 = s1
    ∧ is_blacklisted n s1 = true
    ∧ (_handle_blacklist_remove constants user [c'; m] reply' env' s1).2 = s2
    ∧ BLACKLIST s2 = BLACKLIST s
    ∧ s2 = s.
Proof.
  intros Hadmin Hm Hn Hna Hnb.
  rewrite (blacklist_add_run user c m n reply env s Hadmin Hm Hn).
  rewrite (bool_decide_eq_false_2 _ Hna), (bool_decide_eq_false_2 _ Hnb).
  eexists _, _. split; [done|].
  assert (n ∈ (BLACKLIST s ++ [n])%list) as Hin
    by (rewrite elem_of_app, list_elem_of_singleton; by right).
  split; [by apply bool_decide_eq_true_2|].
  rewrite (blacklist_remove_run user c' m n reply' env' _ Hadmin Hm Hn).
  simpl. rewrite (bool_decide_eq_true_2 _ Hin). simpl.
  split; [done|]. rewrite list_remove_first_app by done.
  split; [done | by destruct s].
Qed.

Lemma blacklist_add_step user args reply env s :
  blacklist_step constants (BLACKLIST s)
    (BLACKLIST (_handle_blacklist_add constants user args reply env s).2).
Proof.
  unfold _handle_blacklist_add, requires_admin.
  destruct (negb (is_admin constants (id user))); [by left|].
  destruct (negb (length args =? 2)%nat
            || negb (is_mention (nth 1 args EmptyString))); [by left|].
  unfold try_except, bind, index, int.
  destruct (args !! 1%nat) as [m|]; simpl; [|by left].
  destruct (PyStr.int (PyStr.slice 2 (-1) m)) as [n|]; simpl; [|by left].
  case_bool_decide as Hadmin; simpl; [by left|].
  case_bool_decide; simpl; [by left|].
  right; left. by exists n.
Qed.

Lemma blacklist_remove_step user args reply env s :
  blacklist_step constants (BLACKLIST s)
    (BLACKLIST (_handle_blacklist_remove constants user args reply env s).2).
Proof.
  unfold _handle_blacklist_remove, requires_admin.
  destruct (negb (is_admin constants (id user))); [by left|].
  destruct (negb (length args =? 2)%nat
            || negb (is_mention (nth 1 args EmptyString))); [by left|].
  unfold try_except, bind, index, int.
  destruct (args !! 1%nat) as [m|]; simpl; [|by left].
  destruct (PyStr.int (PyStr.slice 2 (-1) m)) as [n|]; simpl; [|by left].
  case_bool_decide; simpl; [|by left].
  right; right. by exists n.
Qed.

Lemma handlers_blacklist_step command handler :
  lookup_command (commands constants cmds) command = Some handler ->
  ∀ user args reply env s,
    blacklist_step constants (BLACKLIST s)
      (BLACKLIST (handler user args reply env s).2).
Proof.
  apply (lookup_command_Forall
           (fun h => ∀ user args reply env s,
                blacklist_step constants (BLACKLIST s)
                  (BLACKLIST (h user args reply env s).2))).
  unfold commands.
  repeat (apply Forall_cons; split;
          [simpl;
           first [ exact blacklist_add_step
                 | exact blacklist_remove_step
                 | intros user args reply env s; left; clear; run_handler ]
          |]).
  by apply Forall_nil.
Qed.

Lemma on_message_blacklist_step message env s :
  blacklist_step constants (BLACKLIST s)
    (BLACKLIST (on_message constants cmds message env s).2).
Proof.
  unfold on_message, bind, get. simpl.
  destruct ((id (author message) =? client_user s) || bot (author message));
    [by left|].
  case_bool_decide.
  { destruct (PyStr.startswith _ _); by left. }
  unfold process_message.
  destruct (REPLACE constants _);
    [rewrite handle_replacement_state; by left|].
  destruct (COMMAND constants _); [|by left].
  unfold handle_bot_command, bind.
  assert (blacklist_step constants (BLACKLIST s)
            (BLACKLIST (handle_command constants cmds (author message)
                          (PyStr.strip (content message)) (reference message)
                          env s).2)) as Hk.
  { unfold handle_command. fold (tokens_of (PyStr.strip (content message))).
    destruct (tokens_of _) as [|command rest]; [by left|].
    destruct (lookup_command (commands constants cmds) command)
      as [handler|] eqn:Hh; [|by left].
    unfold try_except, bind.
    destruct (check_cooldown_returns constants (id (author message))
                command env s) as (passed & cooldowns & ->).
    destruct passed; [|by left]. cbn [negb]. cbv beta iota.
    pose proof (handlers_blacklist_step _ _ Hh (author message)
                  (command :: rest) (reference message) env
                  (set_command_cooldowns cooldowns s)) as Hk.
    destruct (handler _ _ _ _ _) as [[r|e] s2]; exact Hk. }
  destruct (handle_command _ _ _ _ _ _ _) as [[[r|]|e] s1];
    [rewrite send_response_state | |]; exact Hk.
Qed.

(** X16.  Whatever messages are processed, a blacklist that holds no
    identifier twice never comes to hold one twice; so a successful
    [blacklist_remove] always unblocks the user it names. *)
Theorem blacklist_stays_duplicate_free inputs s :
  NoDup (BLACKLIST s) ->
  NoDup (BLACKLIST (process_all constants cmds inputs s)).
Proof.
  revert s. induction inputs as [|[message env] rest IH]; intros s Hnd; [done|].
  simpl. apply IH.
  by eapply blacklist_step_NoDup; [apply on_message_blacklist_step|].
Qed.

End BlacklistMore.

Lemma blacklist_add_takes_effect_witness :
  ∃ s',
    _handle_blacklist_add Sample.constants (mkUser 1 false)
      ["blacklist_add"; "<@42>"] None (Sample.env 0) Sample.bot
    = (Ret (result SUCCESS "User <@42> has been blacklisted."), s')
    ∧ BLACKLIST s' = [7; 42].
Proof.
  destruct (proj1 (blacklist_add_takes_effect Sample.constants Sample.cmds
                     (mkUser 1 false) "blacklist_add" "<@42>" 42 None
                     (Sample.env 0) Sample.bot
                     ltac:(simpl; repeat constructor) eq_refl eq_refl
                     ltac:(refine (bool_decide_eq_false_1 _ _); vm_compute; reflexivity))
                  ltac:(refine (bool_decide_eq_false_1 _ _); vm_compute; reflexivity))
    as (s' & Hr & Hb & _).
  by exists s'.
Defined.

Lemma blacklist_remove_takes_effect_witness :
  ∃ s',
    _handle_blacklist_remove Sample.constants (mkUser 1 false)
      ["blacklist_remove"; "<@7>"] None (Sample.env 0) Sample.bot
    = (Ret (result SUCCESS "User <@7> has been removed from the blacklist."),
       s')
    ∧ BLACKLIST s' = [].
Proof.
  destruct (proj1 (blacklist_remove_takes_effect Sample.constants
                     (mkUser 1 false) "blacklist_remove" "<@7>" 7 None
                     (Sample.env 0) Sample.bot
                     ltac:(simpl; repeat constructor) eq_refl eq_refl)
                  ltac:(simpl; repeat constructor))
    as (s' & Hr & Hb & _).
  by exists s'.
Defined.

Lemma blacklist_add_then_remove_witness :
  (_handle_blacklist_remove Sample.constants (mkUser 1 false)
     ["blacklist_remove"; "<@42>"] None (Sample.env 9)
     (_handle_blacklist_add Sample.constants (mkUser 1 false)
        ["blacklist_add"; "<@42>"] None (Sample.env 0) Sample.bot).2).2
  = Sample.bot.
Proof.
  destruct (blacklist_add_then_remove Sample.constants (mkUser 1 false)
              "blacklist_add" "blacklist_remove" "<@42>" 42 None None
              (Sample.env 0) (Sample.env 9) Sample.bot
              ltac:(simpl; repeat constructor) eq_refl eq_refl
              ltac:(refine (bool_decide_eq_false_1 _ _); vm_compute; reflexivity)
              ltac:(refine (bool_decide_eq_false_1 _ _); vm_compute; reflexivity))
    as (s1 & s2 & <- & _ & <- & _ & Hs).
  exact Hs.
Defined.

Lemma blacklist_stays_duplicate_free_witness :
  NoDup (BLACKLIST
           (process_all Sample.constants Sample.cmds
              [(Sample.message_from 1 ";;blacklist_add <@42>", Sample.env 0)]
              Sample.bot)).
Proof.
  apply (blacklist_stays_duplicate_free Sample.constants Sample.cmds).
  simpl. apply NoDup_singleton.
Defined.

(** *** The handlers, continued *)

Section HandlersMore.

Variable constants : Constants.
Variable cmds : Plugins.

Lemma requires_admin_refuses func user args reply env s :
  id user ∉ ADMINS constants ->
  requires_admin constants func user args reply env s
  = (Ret (result NO_PERMISSION
            "You don't have permission to use this command."), s).
Proof.
  intros Hna. unfold requires_admin. cbn [is_admin].
  by rewrite (bool_decide_eq_false_2 _ Hna).
Qed.

(** X17.  The commands [blacklist_add], [blacklist_remove] and [backup],
    invoked by a user who is not an admin, are refused: the result is
    [NO_PERMISSION], or [COOLDOWN] when the gate is closed, and the
    database, the blacklist and the backup files are as before. *)
Theorem admin_commands_refuse_others user cmd reply command rest env s :
  tokens_of cmd = command :: rest ->
  command ∈ ["blacklist_add"; "blacklist_remove"; "backup"] ->
  id user ∉ ADMINS constants ->
  ∃ r s',
    handle_command constants cmds user cmd reply env s = (Ret (Some r), s')
    ∧ (on_cooldown constants command (id user) env s = false ->
       r = result NO_PERMISSION "You don't have permission to use this command.")
    ∧ (on_cooldown constants command (id user) env s = true ->
       r = result COOLDOWN (cooldown_message command))
    ∧ db s' = db s ∧ BLACKLIST s' = BLACKLIST s ∧ files s' = files s.
Proof.
  intros Htok Hcmd Hna.
  assert (∃ func, lookup_command (commands constants cmds) command
                  = Some (requires_admin constants func)) as [func Hh].
  { rewrite !elem_of_cons, elem_of_nil in Hcmd.
    destruct Hcmd as [->|[->|[->|[]]]]; by eexists. }
  destruct (on_cooldown constants command (id user) env s) eqn:Hcd.
  - rewrite (handle_command_rejected constants cmds user cmd reply _ _ _
               env s Htok Hh Hcd).
    by eexists _, _.
  - destruct (check_cooldown_passes constants _ _ _ _ Hcd)
      as (s1 & Hcheck & _ & Hdb & Hbl & Hf).
    rewrite (handle_command_dispatched constants cmds user cmd reply _ _ _
               env s s1 Htok Hh Hcheck).
    rewrite requires_admin_refuses by done. simpl.
    by eexists _, _.
Qed.

(** X18.  The text transforms, [mock] and [deepfry] never raise and never
    change the state; without a replied-to message they answer
    [INVALID_ARGS]; with one they answer with the plugin's payload, or
    with a failure when the plugin raises. *)
Theorem transform_handlers_are_pure :
  (∀ kind, pure_transform (_handle_text_transform cmds kind)
                          (handle_text_command cmds kind))
  ∧ pure_transform (_handle_mock cmds) (handle_mock_command cmds)
  ∧ pure_transform (_handle_deepfry cmds) (handle_deepfry_command cmds).
Proof.
  split; [|split]; [intros kind| |];
    intros user args [ref|] env s;
    unfold _handle_text_transform, _handle_mock, _handle_deepfry,
      try_except, bind, lift_exc, ret.
  - destruct (handle_text_command cmds kind ref) as [payload|e] eqn:Hrun;
      (eexists; split; [done|]; split; [done|];
       split; intros ? ? [= <-] ?; simpl; congruence).
  - eexists. split; [done|]. split; [done|]. split; intros; done.
  - destruct (handle_mock_command cmds ref) as [payload|e] eqn:Hrun;
      (eexists; split; [done|]; split; [done|];
       split; intros ? ? [= <-] ?; simpl; congruence).
  - eexists. split; [done|]. split; [done|]. split; intros; done.
  - destruct (handle_deepfry_command cmds ref) as [payload|e] eqn:Hrun;
      (eexists; split; [done|]; split; [done|];
       split; intros ? ? [= <-] ?; simpl; congruence).
  - eexists. split; [done|]. split; [done|]. split; intros; done.
Qed.

(** X19.  [saved] never raises and never changes the state.  Asked with
    the mention of a user by someone who is not an admin, it answers
    [NO_PERMISSION]; asked without a mention, it lists the keys of the
    user who asks, one per line, or answers [EMPTY_LIST] when there is
    none. *)
Theorem saved_is_read_only user args reply env s :
  ∃ r,
    _handle_saved constants user args reply env s = (Ret r, s)
    ∧ (length args = 2%nat -> is_mention (nth 1 args EmptyString) = true ->
       id user ∉ ADMINS constants ->
       r = result NO_PERMISSION
             "You don't have permission to view another user's keys.")
    ∧ (length args ≠ 2%nat ∨ is_mention (nth 1 args EmptyString) = false ->
       r = result SUCCESS
             (match get_user_keys (id user) s with
              | [] => EMPTY_LIST constants
              | _ => "- " ++ PyStr.join (nl ++ "- ") (get_user_keys (id user) s)
              end)).
Proof.
  unfold _handle_saved, try_except, bind, get, ret, raise.
  destruct ((length args =? 2)%nat && is_mention (nth 1 args EmptyString))
    eqn:Hcond.
  - apply andb_true_iff in Hcond as [Hlen%Nat.eqb_eq Hm].
    cbn [is_admin]. case_bool_decide as Hadmin; cbn [negb].
    + unfold index, int, ret, raise.
      destruct (args !! 1%nat) as [a|]; cbv beta iota;
        [destruct (PyStr.int (PyStr.slice 2 (-1) a)) as [n|]; cbv beta iota|];
        (eexists; split; [done|]; split; [by intros _ _ ?|]);
        intros [?|?]; congruence.
    + eexists. split; [done|]. split; [intros _ _ _; reflexivity|].
      intros [?|?]; congruence.
  - eexists. split; [done|]. split; [|done].
    intros Hlen Hm. rewrite Hlen, Hm in Hcond. done.
Qed.

(** X20.  [delete] never raises.  With a number of tokens other than
    two it answers [INVALID_ARGS] and changes nothing; for a key that is
    not there it answers the failure [KEY_NOT_FOUND] and changes nothing;
    for a key that is there it answers [SUCCESSFUL] and the key is gone. *)
Theorem delete_command_outcome user args reply env s :
  ∃ r s',
    _handle_delete constants user args reply env s = (Ret r, s')
    ∧ (length args ≠ 2%nat ->
       r = result INVALID_ARGS (WRONG_ARGS_DEL constants) ∧ s' = s)
    ∧ (∀ c key, args = [c; key] ->
         (retrieve_text (id user) key s = None ->
          r = result FAILURE (KEY_NOT_FOUND constants) ∧ s' = s)
         ∧ (is_Some (retrieve_text (id user) key s) ->
            r = result SUCCESS (SUCCESSFUL constants)
            ∧ retrieve_text (id user) key s' = None)).
Proof.
  unfold _handle_delete.
  destruct (length args =? 2)%nat eqn:Hlen; cbn [negb].
  2: { apply Nat.eqb_neq in Hlen. eexists _, _. split; [done|].
       split; [done|]. intros c key ->. done. }
  apply Nat.eqb_eq in Hlen.
  destruct args as [|c [|key [|? ?]]]; try done.
  unfold bind, index. change ([c; key] !! 1%nat) with (Some key).
  unfold ret at 1. cbv beta iota.
  destruct (retrieve_text (id user) key s) as [v|] eqn:Hv.
  - rewrite (delete_key_present _ _ v) by done. cbv beta iota.
    eexists _, _. split; [done|]. split; [done|].
    intros c' key' [= <- <-]. rewrite Hv. split; [done|]. intros _.
    split; [done|]. rewrite retrieve_text_delete.
    by rewrite bool_decide_eq_true_2.
  - rewrite delete_key_absent by done. cbv beta iota.
    eexists _, _. split; [done|]. split; [done|].
    intros c' key' [= <- <-]. rewrite Hv. split; [done|]. by intros [? ?].
Qed.

Lemma foldl_pieces_nonempty {X} (f : string -> X -> string) (l : list X) init :
  (∀ t x, ∃ p, f t x = t ++ p ∧ starts_solid p) ->
  l ≠ [] ∨ init ≠ EmptyString ->
  foldl f init l ≠ EmptyString.
Proof.
  intros Hf.
  assert (∀ l init, init ≠ EmptyString -> foldl f init l ≠ EmptyString) as Hgrow.
  { clear l init. induction l as [|x l IH]; intros init Hinit; [done|].
    simpl. apply IH. destruct (Hf init x) as (p & -> & _).
    by destruct init. }
  intros [Hl|Hinit]; [|by apply Hgrow].
  destruct l as [|x l]; [done|]. simpl. apply Hgrow.
  destruct (Hf init x) as (p & -> & (c & r & -> & _)). by destruct init.
Qed.

Lemma attachments_text_nonempty m :
  attachments m ≠ [] ∨ stickers m ≠ [] ->
  _get_attachments_text m ≠ EmptyString.
Proof.
  intros Hne. unfold _get_attachments_text.
  assert (∀ t (x : nat * string),
             ∃ p, (let '(i, url) := x in
                   t ++ "[Attachment " ++ PyStr.of_nat i ++ "](" ++ url ++ ") ")
                  = t ++ p ∧ starts_solid p) as Hatt.
  { intros t [i url]. eexists. split; [done|]. by eexists _, _. }
  assert (∀ t (x : string * string),
             ∃ p, (let '(name, url) := x in
                   t ++ "[" ++ name ++ "](" ++ url ++ ") ")
                  = t ++ p ∧ starts_solid p) as Hst.
  { intros t [name url]. eexists. split; [done|]. by eexists _, _. }
  apply foldl_pieces_nonempty; [exact Hst|].
  destruct Hne as [Ha|Hs]; [right | by left].
  apply foldl_pieces_nonempty; [exact Hatt|]. left.
  destruct (attachments m); [done|]. done.
Qed.

(** X21.  An [add] that takes its value from the replied-to message
    stores the trimmed content followed by the text for the attachments
    and stickers, as soon as the content is not blank or there is an
    attachment or a sticker, provided the key is not there yet or
    [overwrite] is set: a message that is an attachment only can be
    saved. *)
Theorem add_from_reply_stores_value
    (overwrite : bool) user c key reply m env s :
  resolved reply = Some m ->
  PyStr.strip (resolved_content m) ≠ EmptyString
  ∨ attachments m ≠ [] ∨ stickers m ≠ [] ->
  retrieve_text (id user) key s = None ∨ overwrite = true ->
  ∃ s',
    _handle_add constants overwrite user [c; key] (Some reply) env s
    = (Ret (result SUCCESS (SUCCESSFUL constants)), s')
    ∧ retrieve_text (id user) key s'
      = Some (PyStr.strip (resolved_content m) ++ _get_attachments_text m).
Proof.
  intros Hres Hvalue Hfree.
  remember (PyStr.strip (resolved_content m) ++ _get_attachments_text m)
    as text eqn:Htext.
  assert (PyStr.is_empty text = false) as Hne.
  { subst text. destruct Hvalue as [Hc|Ha].
    - by destruct (PyStr.strip (resolved_content m)).
    - apply attachments_text_nonempty in Ha.
      destruct (PyStr.strip (resolved_content m)); [|done]. simpl.
      by destruct (_get_attachments_text m). }
  assert (store_text constants (id user) key text overwrite env s
          = (Ret (result SUCCESS (SUCCESSFUL constants)),
             set_db (<[id user := <[key := text]>
                         (default ∅ (db s !! id user))]> (db s)) s))
    as Hstore.
  { destruct Hfree as [Hnone| ->]; [|apply store_text_overwrite].
    destruct overwrite; [apply store_text_overwrite|].
    by apply store_text_absent. }
  eexists. split.
  - unfold _handle_add. cbn [length Nat.eqb orb andb].
    rewrite bool_decide_eq_false_2 by done. cbn [andb].
    unfold try_except, bind, resolved_of, index, ret. rewrite Hres.
    cbv beta iota. rewrite <- Htext, Hne.
    change ([c; key] !! 1%nat) with (Some key). cbv beta iota.
    by rewrite Hstore.
  - rewrite retrieve_text_insert. by rewrite bool_decide_eq_true_2.
Qed.

(** X22.  [steal] never raises, and leaves the blacklist, the cooldown
    table and the backup files alone.  With a number of tokens other than
    three or four it answers [INVALID_ARGS]; with a second token that is
    not a mention, [INVALID_ARGS] too; with a mention that holds no
    number, the failure [Failed to steal the key.]; in these cases
    nothing has changed. *)
Theorem steal_command_checks_arguments user args reply env s :
  ∃ r s',
    _handle_steal constants cmds user args reply env s = (Ret r, s')
    ∧ BLACKLIST s' = BLACKLIST s
    ∧ command_cooldowns s' = command_cooldowns s
    ∧ files s' = files s
    ∧ (length args ≠ 3%nat -> length args ≠ 4%nat ->
       r = result INVALID_ARGS (WRONG_ARGS constants) ∧ s' = s)
    ∧ (∀ a, length args = 3%nat ∨ length args = 4%nat ->
            args !! 1%nat = Some a ->
            (is_mention a = false ->
             r = result INVALID_ARGS (WRONG_USER_ID constants) ∧ s' = s)
            ∧ (is_mention a = true ->
               PyStr.int (PyStr.slice 2 (-1) a) = None ->
               r = result FAILURE "Failed to steal the key." ∧ s' = s)).
Proof.
  unfold _handle_steal.
  destruct ((length args =? 3)%nat || (length args =? 4)%nat) eqn:Hlen;
    cbn [negb].
  2: { apply orb_false_iff in Hlen as [H3%Nat.eqb_neq H4%Nat.eqb_neq].
       eexists _, _. split; [done|]. split; [done|]. split; [done|].
       split; [done|]. split; [done|]. intros a [?|?]; done. }
  apply orb_true_iff in Hlen.
  assert (length args = 3%nat ∨ length args = 4%nat) as Hlen'
    by (destruct Hlen as [?%Nat.eqb_eq|?%Nat.eqb_eq]; [by left | by right]).
  unfold try_except, bind, index, int, on_db, ret.
  destruct (args !! 1%nat) as [a|] eqn:Ha; cbv beta iota.
  2: { eexists _, _. split; [done|]. split; [done|]. split; [done|].
       split; [done|]. split; [by intros ? ?; destruct Hlen'|]. done. }
  unfold is_mention.
  destruct (PyStr.startswith "<@" a) eqn:Hs; cbn [negb orb andb].
  2: { eexists _, _. split; [done|]. split; [done|]. split; [done|].
       split; [done|]. split; [by intros ? ?; destruct Hlen'|].
       intros a' _ [= <-]. rewrite Hs. by split. }
  destruct (PyStr.endswith ">" a) eqn:He; cbn [negb orb andb].
  2: { eexists _, _. split; [done|]. split; [done|]. split; [done|].
       split; [done|]. split; [by intros ? ?; destruct Hlen'|].
       intros a' _ [= <-]. rewrite Hs, He. by split. }
  destruct (PyStr.int (PyStr.slice 2 (-1) a)) as [n|] eqn:Hn; cbv beta iota.
  2: { eexists _, _. split; [done|]. split; [done|]. split; [done|].
       split; [done|]. split; [by intros ? ?; destruct Hlen'|].
       intros a' _ [= <-]. rewrite Hs, He, Hn. by split. }
  destruct (args !! 2%nat) as [key_to_steal|]; cbv beta iota.
  2: { eexists _, _. split; [done|]. split; [done|]. split; [done|].
       split; [done|]. split; [by intros ? ?; destruct Hlen'|].
       intros a' _ [= <-]. rewrite Hs, He, Hn. by split. }
  destruct (steal cmds (db s) (id user) key_to_steal n _) as [[stolen|e] d];
    cbv beta iota; [destruct stolen|];
    (eexists _, _; split; [done|]; split; [done|]; split; [done|];
     split; [done|]; split; [by intros ? ?; destruct Hlen'|];
     intros a' _ [= <-]; rewrite Hs, He, Hn; by split).
Qed.

End HandlersMore.

Lemma admin_commands_refuse_others_witness :
  ∃ s',
    handle_command Sample.constants Sample.cmds (mkUser 42 false)
      ";;backup" None (Sample.env 100) Sample.bot
    = (Ret (Some (result NO_PERMISSION
                    "You don't have permission to use this command.")), s')
    ∧ files s' = files Sample.bot.
Proof.
  destruct (admin_commands_refuse_others Sample.constants Sample.cmds
              (mkUser 42 false) ";;backup" None "backup" [] (Sample.env 100)
              Sample.bot eq_refl ltac:(repeat constructor)
              ltac:(refine (bool_decide_eq_false_1 _ _); vm_compute; reflexivity))
    as (r & s' & Hr & Hopen & _ & _ & _ & Hf).
  exists s'. rewrite Hr, (Hopen eq_refl). by split.
Defined.

Lemma add_from_reply_stores_value_witness :
  ∃ s',
    _handle_add Sample.constants false (mkUser 42 false) ["add"; "pic"]
      (Some (mkReference (Some (mkResolved 5 "  " ["http://x/a.png"] []))))
      (Sample.env 0) Sample.bot
    = (Ret (result SUCCESS (SUCCESSFUL Sample.constants)), s')
    ∧ retrieve_text 42 "pic" s' = Some "[Attachment 0](http://x/a.png) ".
Proof.
  destruct (add_from_reply_stores_value Sample.constants false
              (mkUser 42 false) "add" "pic"
              (mkReference (Some (mkResolved 5 "  " ["http://x/a.png"] [])))
              (mkResolved 5 "  " ["http://x/a.png"] [])
              (Sample.env 0) Sample.bot eq_refl
              ltac:(right; left; discriminate) ltac:(left; reflexivity))
    as (s' & Hr & Hv).
  exists s'. split; [exact Hr|]. vm_compute in Hv. exact Hv.
Defined.

(** *** The message router, continued *)

Section RouterMore.

Variable constants : Constants.
Variable cmds : Plugins.

Lemma split_marker_plain key :
  has_semicolon key = false -> PyStr.split_marker key = [key].
Proof.
  induction key as [|c r IH]; [done|]. simpl.
  intros [Hc Hr]%orb_false_iff. rewrite (IH Hr), Hc. simpl.
  by destruct r.
Qed.

Lemma split_marker_key key :
  has_semicolon key = false ->
  PyStr.split_marker (";;" ++ key) !! 1%nat = Some key.
Proof.
  intros Hk. change (PyStr.split_marker (";;" ++ key))
    with (EmptyString :: PyStr.split_marker key).
  by rewrite (split_marker_plain key Hk).
Qed.

(** A message of a user who is let through, with a text the replacement
    pattern matches, goes to [handle_replacement]. *)
Lemma on_message_replacement message env s :
  bot (author message) = false ->
  id (author message) ≠ client_user s ->
  id (author message) ∉ BLACKLIST s ->
  REPLACE constants (PyStr.strip (content message)) = true ->
  on_message constants cmds message env s = handle_replacement message env s.
Proof.
  intros Hbot Hself Hnb Hre. unfold on_message, bind, get. cbv beta iota.
  rewrite Hbot, (proj2 (Z.eqb_neq _ _) Hself). cbn [orb is_blacklisted].
  rewrite (bool_decide_eq_false_2 _ Hnb).
  unfold process_message. by rewrite Hre.
Qed.

Lemma handle_replacement_run message key env s :
  PyStr.strip (content message) = ";;" ++ key ->
  has_semicolon key = false ->
  handle_replacement message env s
  = match retrieve_text (id (author message)) key s with
    | Some text =>
        if PyStr.is_empty text then (Ret [], s)
        else reply_to (reply_target message) (Text text) env s
    | None => (Ret [], s)
    end.
Proof.
  intros Hc Hk. unfold handle_replacement, bind, index, get, ret.
  rewrite Hc, (split_marker_key key Hk). cbv beta iota.
  destruct (retrieve_text _ key s) as [text|]; [|done].
  by destruct (PyStr.is_empty text).
Qed.

(** X23.  A message that is the trigger marker followed by a key, from a
    user who is let through, is answered with the text the user has
    stored under the key: the reply goes to the message, or to the
    message it replies to when there is one; when nothing is stored
    under the key, or an empty text, nothing is sent.  The state is never
    changed. *)
Theorem replacement_replies_stored_text message key env s :
  bot (author message) = false ->
  id (author message) ≠ client_user s ->
  id (author message) ∉ BLACKLIST s ->
  PyStr.strip (content message) = ";;" ++ key ->
  has_semicolon key = false ->
  REPLACE constants (";;" ++ key) = true ->
  (on_message constants cmds message env s).2 = s
  ∧ (retrieve_text (id (author message)) key s = None ->
     on_message constants cmds message env s = (Ret [], s))
  ∧ (retrieve_text (id (author message)) key s = Some EmptyString ->
     on_message constants cmds message env s = (Ret [], s))
  ∧ (∀ text,
       retrieve_text (id (author message)) key s = Some text ->
       text ≠ EmptyString ->
       (reference message = None ->
        on_message constants cmds message env s
        = (Ret [mkReply (message_id message) (Text text)], s))
       ∧ (∀ ref m, reference message = Some ref -> resolved ref = Some m ->
            on_message constants cmds message env s
            = (Ret [mkReply (resolved_id m) (Text text)], s))).
Proof.
  intros Hbot Hself Hnb Hc Hk Hre.
  rewrite on_message_replacement by (by rewrite ?Hc).
  split; [apply handle_replacement_state|].
  rewrite (handle_replacement_run message key env s Hc Hk).
  split; [by intros ->|]. split; [by intros ->|].
  intros text -> Hne.
  assert (PyStr.is_empty text = false) as -> by (by destruct text).
  unfold reply_target. split.
  - by intros ->.
  - intros ref m -> Hm. by rewrite Hm.
Qed.

(** X24.  A user who is let through adds a text with [add] and then
    sends the trigger marker followed by the key: the second message is
    answered with the words of the text joined by single spaces. *)
Theorem add_then_replacement m1 m2 key w ws env env' s :
  bot (author m1) = false ->
  id (author m1) ≠ client_user s ->
  id (author m1) ∉ BLACKLIST s ->
  REPLACE constants (PyStr.strip (content m1)) = false ->
  COMMAND constants (PyStr.strip (content m1)) = true ->
  tokens_of (PyStr.strip (content m1)) = "add" :: key :: w :: ws ->
  on_cooldown constants "add" (id (author m1)) env s = false ->
  retrieve_text (id (author m1)) key s = None ->
  author m2 = author m1 ->
  reference m2 = None ->
  PyStr.strip (content m2) = ";;" ++ key ->
  has_semicolon key = false ->
  REPLACE constants (";;" ++ key) = true ->
  ∃ s',
    (on_message constants cmds m1 env s).2 = s'
    ∧ on_message constants cmds m2 env' s'
      = (Ret [mkReply (message_id m2) (Text (PyStr.join " " (w :: ws)))], s').
Proof.
  intros Hbot Hself Hnb Hre Hco Htok Hcd Hfree Hauthor Href Hc Hk Hre2.
  destruct (handle_command_add_stores constants cmds (author m1)
              (PyStr.strip (content m1)) (reference m1) false key w ws env s
              Htok Hcd (or_introl Hfree)) as (cooldowns & Hrun & _).
  assert (starts_solid (PyStr.join " " (w :: ws))) as Hsolid.
  { apply join_solid.
    apply (split_tokens_solid
             (if PyStr.startswith ";;" (PyStr.strip (content m1))
              then PyStr.slice_from 2 (PyStr.strip (content m1))
              else PyStr.strip (content m1))).
    unfold tokens_of in Htok. rewrite Htok.
    rewrite !elem_of_cons. by right; right; left. }
  remember (PyStr.join " " (w :: ws)) as text eqn:Htext.
  assert ((on_message constants cmds m1 env s).2
          = set_db (<[id (author m1) := <[key := text]>
                       (default ∅ (db s !! id (author m1)))]> (db s))
              (set_command_cooldowns cooldowns s)) as Hs'.
  { unfold on_message, bind, get. cbv beta iota.
    rewrite Hbot, (proj2 (Z.eqb_neq _ _) Hself). cbn [orb is_blacklisted].
    rewrite (bool_decide_eq_false_2 _ Hnb).
    unfold process_message. rewrite Hre, Hco.
    unfold handle_bot_command, bind. rewrite Hrun.
    by rewrite send_response_state. }
  eexists. split; [exact Hs'|].
  rewrite on_message_replacement; [| by rewrite Hauthor ..| by rewrite Hc].
  rewrite (handle_replacement_run m2 key env' _ Hc Hk). rewrite Hauthor.
  unfold retrieve_text. simpl. rewrite lookup_insert_eq. simpl.
  rewrite lookup_insert_eq.
  destruct Hsolid as (c & r & -> & _).
  simpl. unfold reply_target. by rewrite Href.
Qed.

Lemma handle_command_no_raise user cmd reply env s :
  ∃ r s', handle_command constants cmds user cmd reply env s = (Ret r, s').
Proof.
  unfold handle_command.
  destruct (PyStr.split _) as [|command rest]; [by eexists _, _|].
  destruct (lookup_command _ command) as [handler|]; [|by eexists _, _].
  unfold try_except, bind.
  destruct (check_cooldown_returns constants (id user) command env s)
    as (passed & cooldowns & ->).
  destruct passed; cbn [negb]; cbv beta iota; [|by eexists _, _].
  destruct (handler user (command :: rest) reply env _) as [[r|e] s'];
    by eexists _, _.
Qed.

Lemma reply_to_outcome target payload env s :
  reply_to target payload env s
  = match target with
    | Some t => (Ret [mkReply t payload], s)
    | None => (Raise "'NoneType' object has no attribute 'reply'", s)
    end.
Proof. by destruct target. Qed.

(** X25.  [on_message] sends at most one reply, addressed to the message
    or to the message it replies to.  It raises in two cases only: the
    message refers to one that is not resolved, or the replacement
    pattern matches a text in which the trigger marker does not occur. *)
Theorem on_message_replies_at_most_once msg env s :
  (∀ replies s',
     on_message constants cmds msg env s = (Ret replies, s') ->
     (length replies <= 1)%nat
     ∧ ∀ r, r ∈ replies ->
            target r = message_id msg
            ∨ reply_target msg = Some (target r))
  ∧ (reply_target msg ≠ None ->
     (REPLACE constants (PyStr.strip (content msg)) = true ->
      is_Some (PyStr.split_marker (PyStr.strip (content msg)) !! 1%nat)) ->
     ∃ replies s',
       on_message constants cmds msg env s = (Ret replies, s')).
Proof.
  assert (∀ payload,
            (∀ replies s',
               reply_to (reply_target msg) payload env s = (Ret replies, s') ->
               (length replies <= 1)%nat
               ∧ ∀ r, r ∈ replies ->
                      target r = message_id msg
                      ∨ reply_target msg = Some (target r))
            ∧ (reply_target msg ≠ None ->
               ∃ replies s',
                 reply_to (reply_target msg) payload env s
                 = (Ret replies, s'))) as Hreply.
  { intros payload. rewrite reply_to_outcome.
    destruct (reply_target msg) as [t|]; split; try done.
    - intros replies s' [= <- <-]. split; [simpl; lia|].
      intros r ->%list_elem_of_singleton. by right.
    - intros _. by eexists _, _. }
  assert (∀ (x : exc (list OutboundReply) * Bot),
            x = (Ret [], s) ∨ (∃ t, x = (Ret [mkReply (message_id msg) t], s)) ->
            (∀ replies s', x = (Ret replies, s') ->
               (length replies <= 1)%nat
               ∧ ∀ r, r ∈ replies ->
                      target r = message_id msg
                      ∨ reply_target msg = Some (target r))
            ∧ ∃ replies s', x = (Ret replies, s')) as Hsimple.
  { intros x [->|[t ->]]; (split; [|by eexists _, _]).
    - intros replies s' [= <- <-]. split; [simpl; lia|].
      by intros r ?%elem_of_nil.
    - intros replies s' [= <- <-]. split; [simpl; lia|].
      intros r ->%list_elem_of_singleton. by left. }
  assert (∀ response s1,
            (∀ replies s',
               send_response msg response env s1 = (Ret replies, s') ->
               (length replies <= 1)%nat
               ∧ ∀ r, r ∈ replies ->
                      target r = message_id msg
                      ∨ reply_target msg = Some (target r))
            ∧ (reply_target msg ≠ None ->
               ∃ replies s',
                 send_response msg response env s1 = (Ret replies, s')))
    as Hsend.
  { intros response s1. unfold send_response.
    destruct (bool_decide (status response = SUCCESS)
              && truthy (message response)).
    - destruct (message response) as [payload|].
      + rewrite reply_to_outcome.
        destruct (reply_target msg) as [t|]; split; try done.
        * intros replies s' [= <- <-]. split; [simpl; lia|].
          intros r ->%list_elem_of_singleton. by right.
        * intros _. by eexists _, _.
      + split; [|by eexists _, _].
        intros replies s' [= <- <-]. split; [simpl; lia|].
        by intros r ?%elem_of_nil.
    - case_bool_decide.
      + split; [|by eexists _, _].
        intros replies s' [= <- <-]. split; [simpl; lia|].
        intros r ->%list_elem_of_singleton. by left.
      + split; [|by eexists _, _].
        intros replies s' [= <- <-]. split; [simpl; lia|].
        by intros r ?%elem_of_nil. }
  unfold on_message, bind, get. cbv beta iota.
  destruct ((id (author msg) =? client_user s) || bot (author msg)).
  { destruct (Hsimple (ret [] env s)) as [? ?]; [by left|]. by split. }
  destruct (is_blacklisted (id (author msg)) s).
  { destruct (PyStr.startswith ";;" (PyStr.strip (content msg))).
    - destruct (Hsimple (reply_to (Some (message_id msg))
                           (Text blacklisted_reply) env s)) as [? ?];
        [right; by eexists|]. by split.
    - destruct (Hsimple (ret [] env s)) as [? ?]; [by left|]. by split. }
  unfold process_message.
  destruct (REPLACE constants (PyStr.strip (content msg))).
  { unfold handle_replacement, bind, index, get, ret, raise.
    destruct (PyStr.split_marker _ !! 1%nat) as [key|]; cbv beta iota.
    - destruct (retrieve_text _ key s) as [text|].
      + destruct (PyStr.is_empty text).
        * destruct (Hsimple (Ret [], s)) as [? ?]; [by left|]. by split.
        * destruct (Hreply (Text text)) as [? ?]. split; [assumption | eauto].
      + destruct (Hsimple (Ret [], s)) as [? ?]; [by left|]. by split.
    - split; [done|]. intros _ Hparts. by destruct (Hparts eq_refl). }
  destruct (COMMAND constants (PyStr.strip (content msg))).
  2: { destruct (Hsimple (ret [] env s)) as [? ?]; [by left|]. by split. }
  unfold handle_bot_command, bind.
  destruct (handle_command_no_raise (author msg)
              (PyStr.strip (content msg)) (reference msg) env s)
    as (r & s1 & ->).
  destruct r as [response|].
  - destruct (Hsend response s1) as [? ?]. split; [assumption | eauto].
  - split; [|by eexists _, _].
    intros replies s' [= <- <-]. split; [simpl; lia|].
    by intros r ?%elem_of_nil.
Qed.

End RouterMore.

Lemma replacement_replies_stored_text_witness :
  on_message Sample.constants Sample.cmds (Sample.message_from 42 ";;k")
    (Sample.env 5)
    (set_db {[ 42 := {[ "k" := "some text" ]} ]} Sample.bot)
  = (Ret [mkReply 1000 (Text "some text")],
     set_db {[ 42 := {[ "k" := "some text" ]} ]} Sample.bot).
Proof.
  destruct (replacement_replies_stored_text Sample.constants Sample.cmds
              (Sample.message_from 42 ";;k") "k" (Sample.env 5)
              (set_db {[ 42 := {[ "k" := "some text" ]} ]} Sample.bot)
              eq_refl ltac:(discriminate)
              ltac:(refine (bool_decide_eq_false_1 _ _); vm_compute; reflexivity)
              eq_refl eq_refl eq_refl)
    as (_ & _ & _ & Htext).
  apply (Htext "some text"); [vm_compute; reflexivity | discriminate | reflexivity].
Defined.

Lemma add_then_replacement_witness :
  ∃ s',
    (on_message Sample.constants Sample.cmds
       (Sample.message_from 42 ";;add greeting hello world")
       (Sample.env 100) Sample.bot).2 = s'
    ∧ on_message Sample.constants Sample.cmds
        (Sample.message_from 42 ";;greeting") (Sample.env 101) s'
      = (Ret [mkReply 1000 (Text "hello world")], s').
Proof.
  apply (add_then_replacement Sample.constants Sample.cmds
           (Sample.message_from 42 ";;add greeting hello world")
           (Sample.message_from 42 ";;greeting")
           "greeting" "hello" ["world"] (Sample.env 100) (Sample.env 101)
           Sample.bot eq_refl ltac:(discriminate)
           ltac:(refine (bool_decide_eq_false_1 _ _); vm_compute; reflexivity)
           eq_refl eq_refl eq_refl eq_refl eq_refl eq_refl eq_refl eq_refl
           eq_refl eq_refl).
Defined.
